(** * Verification of the outlook-archiver front-end core

    Shallow embedding of the wizard controller ([App.tsx]), the cancel
    confirmation of [ProcessControl.tsx], the PST candidate validation of
    [FileSelector.tsx], the backend error classifier
    [mapBackendErrorToGerman] and the zod schema [processingConfigSchema].

    Strings are Stdlib [string]s; a JavaScript string is modelled by its
    UTF-8 bytes.  [String.prototype.toLowerCase] is the Unicode 14.0
    default lower-casing of the decoded code points.
    A finite JavaScript number is modelled as a rational [Q]; where a
    non-finite number can reach the code (the values of a configuration
    draft), NaN and the two infinities are constructors of their own. *)

From Stdlib Require Import String Ascii List Bool NArith ZArith QArith Lia.
Import ListNotations.
Open Scope nat_scope.
Open Scope string_scope.

(* ------------------------------------------------------------------ *)
(** ** JavaScript string primitives *)

Module JsString.

(** [String.prototype.toLowerCase] on the UTF-8 bytes of a string: the
    bytes are decoded to code points, each code point is mapped by the
    Unicode 14.0 lower-case mapping (the simple mappings of UnicodeData,
    the unconditional mapping of U+0130 from SpecialCasing, and the
    Final_Sigma rule for U+03A3, with the Cased and Case_Ignorable
    properties of DerivedCoreProperties), and the result is encoded back.
    A byte that does not start a well-formed sequence stays as it is. *)
Module Unicode.
Local Open Scope N_scope.

(** The simple lower-case mappings, in runs [(first, count, stride,
    target)]: the code point [first + i * stride] ([i < count]) maps to
    [target + i * stride]. *)
Definition lower_runs : list (N * N * N * N) := [
  (0x41, 26, 1, 0x61); (0xC0, 23, 1, 0xE0); (0xD8, 7, 1, 0xF8); (0x100, 24, 2, 0x101);
  (0x132, 3, 2, 0x133); (0x139, 8, 2, 0x13A); (0x14A, 23, 2, 0x14B); (0x178, 1, 1, 0xFF);
  (0x179, 3, 2, 0x17A); (0x181, 1, 1, 0x253); (0x182, 2, 2, 0x183); (0x186, 1, 1, 0x254);
  (0x187, 1, 1, 0x188); (0x189, 2, 1, 0x256); (0x18B, 1, 1, 0x18C); (0x18E, 1, 1, 0x1DD);
  (0x18F, 1, 1, 0x259); (0x190, 1, 1, 0x25B); (0x191, 1, 1, 0x192); (0x193, 1, 1, 0x260);
  (0x194, 1, 1, 0x263); (0x196, 1, 1, 0x269); (0x197, 1, 1, 0x268); (0x198, 1, 1, 0x199);
  (0x19C, 1, 1, 0x26F); (0x19D, 1, 1, 0x272); (0x19F, 1, 1, 0x275); (0x1A0, 3, 2, 0x1A1);
  (0x1A6, 1, 1, 0x280); (0x1A7, 1, 1, 0x1A8); (0x1A9, 1, 1, 0x283); (0x1AC, 1, 1, 0x1AD);
  (0x1AE, 1, 1, 0x288); (0x1AF, 1, 1, 0x1B0); (0x1B1, 2, 1, 0x28A); (0x1B3, 2, 2, 0x1B4);
  (0x1B7, 1, 1, 0x292); (0x1B8, 1, 1, 0x1B9); (0x1BC, 1, 1, 0x1BD); (0x1C4, 1, 1, 0x1C6);
  (0x1C5, 1, 1, 0x1C6); (0x1C7, 1, 1, 0x1C9); (0x1C8, 1, 1, 0x1C9); (0x1CA, 1, 1, 0x1CC);
  (0x1CB, 9, 2, 0x1CC); (0x1DE, 9, 2, 0x1DF); (0x1F1, 1, 1, 0x1F3); (0x1F2, 2, 2, 0x1F3);
  (0x1F6, 1, 1, 0x195); (0x1F7, 1, 1, 0x1BF); (0x1F8, 20, 2, 0x1F9); (0x220, 1, 1, 0x19E);
  (0x222, 9, 2, 0x223); (0x23A, 1, 1, 0x2C65); (0x23B, 1, 1, 0x23C); (0x23D, 1, 1, 0x19A);
  (0x23E, 1, 1, 0x2C66); (0x241, 1, 1, 0x242); (0x243, 1, 1, 0x180); (0x244, 1, 1, 0x289);
  (0x245, 1, 1, 0x28C); (0x246, 5, 2, 0x247); (0x370, 2, 2, 0x371); (0x376, 1, 1, 0x377);
  (0x37F, 1, 1, 0x3F3); (0x386, 1, 1, 0x3AC); (0x388, 3, 1, 0x3AD); (0x38C, 1, 1, 0x3CC);
  (0x38E, 2, 1, 0x3CD); (0x391, 17, 1, 0x3B1); (0x3A3, 9, 1, 0x3C3); (0x3CF, 1, 1, 0x3D7);
  (0x3D8, 12, 2, 0x3D9); (0x3F4, 1, 1, 0x3B8); (0x3F7, 1, 1, 0x3F8); (0x3F9, 1, 1, 0x3F2);
  (0x3FA, 1, 1, 0x3FB); (0x3FD, 3, 1, 0x37B); (0x400, 16, 1, 0x450); (0x410, 32, 1, 0x430);
  (0x460, 17, 2, 0x461); (0x48A, 27, 2, 0x48B); (0x4C0, 1, 1, 0x4CF); (0x4C1, 7, 2, 0x4C2);
  (0x4D0, 48, 2, 0x4D1); (0x531, 38, 1, 0x561); (0x10A0, 38, 1, 0x2D00); (0x10C7, 1, 1, 0x2D27);
  (0x10CD, 1, 1, 0x2D2D); (0x13A0, 80, 1, 0xAB70); (0x13F0, 6, 1, 0x13F8); (0x1C90, 43, 1, 0x10D0);
  (0x1CBD, 3, 1, 0x10FD); (0x1E00, 75, 2, 0x1E01); (0x1E9E, 1, 1, 0xDF); (0x1EA0, 48, 2, 0x1EA1);
  (0x1F08, 8, 1, 0x1F00); (0x1F18, 6, 1, 0x1F10); (0x1F28, 8, 1, 0x1F20); (0x1F38, 8, 1, 0x1F30);
  (0x1F48, 6, 1, 0x1F40); (0x1F59, 4, 2, 0x1F51); (0x1F68, 8, 1, 0x1F60); (0x1F88, 8, 1, 0x1F80);
  (0x1F98, 8, 1, 0x1F90); (0x1FA8, 8, 1, 0x1FA0); (0x1FB8, 2, 1, 0x1FB0); (0x1FBA, 2, 1, 0x1F70);
  (0x1FBC, 1, 1, 0x1FB3); (0x1FC8, 4, 1, 0x1F72); (0x1FCC, 1, 1, 0x1FC3); (0x1FD8, 2, 1, 0x1FD0);
  (0x1FDA, 2, 1, 0x1F76); (0x1FE8, 2, 1, 0x1FE0); (0x1FEA, 2, 1, 0x1F7A); (0x1FEC, 1, 1, 0x1FE5);
  (0x1FF8, 2, 1, 0x1F78); (0x1FFA, 2, 1, 0x1F7C); (0x1FFC, 1, 1, 0x1FF3); (0x2126, 1, 1, 0x3C9);
  (0x212A, 1, 1, 0x6B); (0x212B, 1, 1, 0xE5); (0x2132, 1, 1, 0x214E); (0x2160, 16, 1, 0x2170);
  (0x2183, 1, 1, 0x2184); (0x24B6, 26, 1, 0x24D0); (0x2C00, 48, 1, 0x2C30); (0x2C60, 1, 1, 0x2C61);
  (0x2C62, 1, 1, 0x26B); (0x2C63, 1, 1, 0x1D7D); (0x2C64, 1, 1, 0x27D); (0x2C67, 3, 2, 0x2C68);
  (0x2C6D, 1, 1, 0x251); (0x2C6E, 1, 1, 0x271); (0x2C6F, 1, 1, 0x250); (0x2C70, 1, 1, 0x252);
  (0x2C72, 1, 1, 0x2C73); (0x2C75, 1, 1, 0x2C76); (0x2C7E, 2, 1, 0x23F); (0x2C80, 50, 2, 0x2C81);
  (0x2CEB, 2, 2, 0x2CEC); (0x2CF2, 1, 1, 0x2CF3); (0xA640, 23, 2, 0xA641); (0xA680, 14, 2, 0xA681);
  (0xA722, 7, 2, 0xA723); (0xA732, 31, 2, 0xA733); (0xA779, 2, 2, 0xA77A); (0xA77D, 1, 1, 0x1D79);
  (0xA77E, 5, 2, 0xA77F); (0xA78B, 1, 1, 0xA78C); (0xA78D, 1, 1, 0x265); (0xA790, 2, 2, 0xA791);
  (0xA796, 10, 2, 0xA797); (0xA7AA, 1, 1, 0x266); (0xA7AB, 1, 1, 0x25C); (0xA7AC, 1, 1, 0x261);
  (0xA7AD, 1, 1, 0x26C); (0xA7AE, 1, 1, 0x26A); (0xA7B0, 1, 1, 0x29E); (0xA7B1, 1, 1, 0x287);
  (0xA7B2, 1, 1, 0x29D); (0xA7B3, 1, 1, 0xAB53); (0xA7B4, 8, 2, 0xA7B5); (0xA7C4, 1, 1, 0xA794);
  (0xA7C5, 1, 1, 0x282); (0xA7C6, 1, 1, 0x1D8E); (0xA7C7, 2, 2, 0xA7C8); (0xA7D0, 1, 1, 0xA7D1);
  (0xA7D6, 2, 2, 0xA7D7); (0xA7F5, 1, 1, 0xA7F6); (0xFF21, 26, 1, 0xFF41); (0x10400, 40, 1, 0x10428);
  (0x104B0, 36, 1, 0x104D8); (0x10570, 11, 1, 0x10597); (0x1057C, 15, 1, 0x105A3); (0x1058C, 7, 1, 0x105B3);
  (0x10594, 2, 1, 0x105BB); (0x10C80, 51, 1, 0x10CC0); (0x118A0, 32, 1, 0x118C0); (0x16E40, 32, 1, 0x16E60);
  (0x1E900, 34, 1, 0x1E922) ].

(** The code points with the Cased property (inclusive ranges). *)
Definition cased_ranges : list (N * N) := [
  (0x41, 0x5A); (0x61, 0x7A); (0xAA, 0xAA); (0xB5, 0xB5); (0xBA, 0xBA); (0xC0, 0xD6);
  (0xD8, 0xF6); (0xF8, 0x1BA); (0x1BC, 0x1BF); (0x1C4, 0x293); (0x295, 0x2B8); (0x2C0, 0x2C1);
  (0x2E0, 0x2E4); (0x345, 0x345); (0x370, 0x373); (0x376, 0x377); (0x37A, 0x37D); (0x37F, 0x37F);
  (0x386, 0x386); (0x388, 0x38A); (0x38C, 0x38C); (0x38E, 0x3A1); (0x3A3, 0x3F5); (0x3F7, 0x481);
  (0x48A, 0x52F); (0x531, 0x556); (0x560, 0x588); (0x10A0, 0x10C5); (0x10C7, 0x10C7); (0x10CD, 0x10CD);
  (0x10D0, 0x10FA); (0x10FD, 0x10FF); (0x13A0, 0x13F5); (0x13F8, 0x13FD); (0x1C80, 0x1C88); (0x1C90, 0x1CBA);
  (0x1CBD, 0x1CBF); (0x1D00, 0x1DBF); (0x1E00, 0x1F15); (0x1F18, 0x1F1D); (0x1F20, 0x1F45); (0x1F48, 0x1F4D);
  (0x1F50, 0x1F57); (0x1F59, 0x1F59); (0x1F5B, 0x1F5B); (0x1F5D, 0x1F5D); (0x1F5F, 0x1F7D); (0x1F80, 0x1FB4);
  (0x1FB6, 0x1FBC); (0x1FBE, 0x1FBE); (0x1FC2, 0x1FC4); (0x1FC6, 0x1FCC); (0x1FD0, 0x1FD3); (0x1FD6, 0x1FDB);
  (0x1FE0, 0x1FEC); (0x1FF2, 0x1FF4); (0x1FF6, 0x1FFC); (0x2071, 0x2071); (0x207F, 0x207F); (0x2090, 0x209C);
  (0x2102, 0x2102); (0x2107, 0x2107); (0x210A, 0x2113); (0x2115, 0x2115); (0x2119, 0x211D); (0x2124, 0x2124);
  (0x2126, 0x2126); (0x2128, 0x2128); (0x212A, 0x212D); (0x212F, 0x2134); (0x2139, 0x2139); (0x213C, 0x213F);
  (0x2145, 0x2149); (0x214E, 0x214E); (0x2160, 0x217F); (0x2183, 0x2184); (0x24B6, 0x24E9); (0x2C00, 0x2CE4);
  (0x2CEB, 0x2CEE); (0x2CF2, 0x2CF3); (0x2D00, 0x2D25); (0x2D27, 0x2D27); (0x2D2D, 0x2D2D); (0xA640, 0xA66D);
  (0xA680, 0xA69D); (0xA722, 0xA787); (0xA78B, 0xA78E); (0xA790, 0xA7CA); (0xA7D0, 0xA7D1); (0xA7D3, 0xA7D3);
  (0xA7D5, 0xA7D9); (0xA7F5, 0xA7F6); (0xA7F8, 0xA7FA); (0xAB30, 0xAB5A); (0xAB5C, 0xAB68); (0xAB70, 0xABBF);
  (0xFB00, 0xFB06); (0xFB13, 0xFB17); (0xFF21, 0xFF3A); (0xFF41, 0xFF5A); (0x10400, 0x1044F); (0x104B0, 0x104D3);
  (0x104D8, 0x104FB); (0x10570, 0x1057A); (0x1057C, 0x1058A); (0x1058C, 0x10592); (0x10594, 0x10595); (0x10597, 0x105A1);
  (0x105A3, 0x105B1); (0x105B3, 0x105B9); (0x105BB, 0x105BC); (0x10780, 0x10780); (0x10783, 0x10785); (0x10787, 0x107B0);
  (0x107B2, 0x107BA); (0x10C80, 0x10CB2); (0x10CC0, 0x10CF2); (0x118A0, 0x118DF); (0x16E40, 0x16E7F); (0x1D400, 0x1D454);
  (0x1D456, 0x1D49C); (0x1D49E, 0x1D49F); (0x1D4A2, 0x1D4A2); (0x1D4A5, 0x1D4A6); (0x1D4A9, 0x1D4AC); (0x1D4AE, 0x1D4B9);
  (0x1D4BB, 0x1D4BB); (0x1D4BD, 0x1D4C3); (0x1D4C5, 0x1D505); (0x1D507, 0x1D50A); (0x1D50D, 0x1D514); (0x1D516, 0x1D51C);
  (0x1D51E, 0x1D539); (0x1D53B, 0x1D53E); (0x1D540, 0x1D544); (0x1D546, 0x1D546); (0x1D54A, 0x1D550); (0x1D552, 0x1D6A5);
  (0x1D6A8, 0x1D6C0); (0x1D6C2, 0x1D6DA); (0x1D6DC, 0x1D6FA); (0x1D6FC, 0x1D714); (0x1D716, 0x1D734); (0x1D736, 0x1D74E);
  (0x1D750, 0x1D76E); (0x1D770, 0x1D788); (0x1D78A, 0x1D7A8); (0x1D7AA, 0x1D7C2); (0x1D7C4, 0x1D7CB); (0x1DF00, 0x1DF09);
  (0x1DF0B, 0x1DF1E); (0x1E900, 0x1E943); (0x1F130, 0x1F149); (0x1F150, 0x1F169); (0x1F170, 0x1F189) ].

(** The code points with the Case_Ignorable property. *)
Definition case_ignorable_ranges : list (N * N) := [
  (0x27, 0x27); (0x2E, 0x2E); (0x3A, 0x3A); (0x5E, 0x5E); (0x60, 0x60); (0xA8, 0xA8);
  (0xAD, 0xAD); (0xAF, 0xAF); (0xB4, 0xB4); (0xB7, 0xB8); (0x2B0, 0x36F); (0x374, 0x375);
  (0x37A, 0x37A); (0x384, 0x385); (0x387, 0x387); (0x483, 0x489); (0x559, 0x559); (0x55F, 0x55F);
  (0x591, 0x5BD); (0x5BF, 0x5BF); (0x5C1, 0x5C2); (0x5C4, 0x5C5); (0x5C7, 0x5C7); (0x5F4, 0x5F4);
  (0x600, 0x605); (0x610, 0x61A); (0x61C, 0x61C); (0x640, 0x640); (0x64B, 0x65F); (0x670, 0x670);
  (0x6D6, 0x6DD); (0x6DF, 0x6E8); (0x6EA, 0x6ED); (0x70F, 0x70F); (0x711, 0x711); (0x730, 0x74A);
  (0x7A6, 0x7B0); (0x7EB, 0x7F5); (0x7FA, 0x7FA); (0x7FD, 0x7FD); (0x816, 0x82D); (0x859, 0x85B);
  (0x888, 0x888); (0x890, 0x891); (0x898, 0x89F); (0x8C9, 0x902); (0x93A, 0x93A); (0x93C, 0x93C);
  (0x941, 0x948); (0x94D, 0x94D); (0x951, 0x957); (0x962, 0x963); (0x971, 0x971); (0x981, 0x981);
  (0x9BC, 0x9BC); (0x9C1, 0x9C4); (0x9CD, 0x9CD); (0x9E2, 0x9E3); (0x9FE, 0x9FE); (0xA01, 0xA02);
  (0xA3C, 0xA3C); (0xA41, 0xA42); (0xA47, 0xA48); (0xA4B, 0xA4D); (0xA51, 0xA51); (0xA70, 0xA71);
  (0xA75, 0xA75); (0xA81, 0xA82); (0xABC, 0xABC); (0xAC1, 0xAC5); (0xAC7, 0xAC8); (0xACD, 0xACD);
  (0xAE2, 0xAE3); (0xAFA, 0xAFF); (0xB01, 0xB01); (0xB3C, 0xB3C); (0xB3F, 0xB3F); (0xB41, 0xB44);
  (0xB4D, 0xB4D); (0xB55, 0xB56); (0xB62, 0xB63); (0xB82, 0xB82); (0xBC0, 0xBC0); (0xBCD, 0xBCD);
  (0xC00, 0xC00); (0xC04, 0xC04); (0xC3C, 0xC3C); (0xC3E, 0xC40); (0xC46, 0xC48); (0xC4A, 0xC4D);
  (0xC55, 0xC56); (0xC62, 0xC63); (0xC81, 0xC81); (0xCBC, 0xCBC); (0xCBF, 0xCBF); (0xCC6, 0xCC6);
  (0xCCC, 0xCCD); (0xCE2, 0xCE3); (0xD00, 0xD01); (0xD3B, 0xD3C); (0xD41, 0xD44); (0xD4D, 0xD4D);
  (0xD62, 0xD63); (0xD81, 0xD81); (0xDCA, 0xDCA); (0xDD2, 0xDD4); (0xDD6, 0xDD6); (0xE31, 0xE31);
  (0xE34, 0xE3A); (0xE46, 0xE4E); (0xEB1, 0xEB1); (0xEB4, 0xEBC); (0xEC6, 0xEC6); (0xEC8, 0xECD);
  (0xF18, 0xF19); (0xF35, 0xF35); (0xF37, 0xF37); (0xF39, 0xF39); (0xF71, 0xF7E); (0xF80, 0xF84);
  (0xF86, 0xF87); (0xF8D, 0xF97); (0xF99, 0xFBC); (0xFC6, 0xFC6); (0x102D, 0x1030); (0x1032, 0x1037);
  (0x1039, 0x103A); (0x103D, 0x103E); (0x1058, 0x1059); (0x105E, 0x1060); (0x1071, 0x1074); (0x1082, 0x1082);
  (0x1085, 0x1086); (0x108D, 0x108D); (0x109D, 0x109D); (0x10FC, 0x10FC); (0x135D, 0x135F); (0x1712, 0x1714);
  (0x1732, 0x1733); (0x1752, 0x1753); (0x1772, 0x1773); (0x17B4, 0x17B5); (0x17B7, 0x17BD); (0x17C6, 0x17C6);
  (0x17C9, 0x17D3); (0x17D7, 0x17D7); (0x17DD, 0x17DD); (0x180B, 0x180F); (0x1843, 0x1843); (0x1885, 0x1886);
  (0x18A9, 0x18A9); (0x1920, 0x1922); (0x1927, 0x1928); (0x1932, 0x1932); (0x1939, 0x193B); (0x1A17, 0x1A18);
  (0x1A1B, 0x1A1B); (0x1A56, 0x1A56); (0x1A58, 0x1A5E); (0x1A60, 0x1A60); (0x1A62, 0x1A62); (0x1A65, 0x1A6C);
  (0x1A73, 0x1A7C); (0x1A7F, 0x1A7F); (0x1AA7, 0x1AA7); (0x1AB0, 0x1ACE); (0x1B00, 0x1B03); (0x1B34, 0x1B34);
  (0x1B36, 0x1B3A); (0x1B3C, 0x1B3C); (0x1B42, 0x1B42); (0x1B6B, 0x1B73); (0x1B80, 0x1B81); (0x1BA2, 0x1BA5);
  (0x1BA8, 0x1BA9); (0x1BAB, 0x1BAD); (0x1BE6, 0x1BE6); (0x1BE8, 0x1BE9); (0x1BED, 0x1BED); (0x1BEF, 0x1BF1);
  (0x1C2C, 0x1C33); (0x1C36, 0x1C37); (0x1C78, 0x1C7D); (0x1CD0, 0x1CD2); (0x1CD4, 0x1CE0); (0x1CE2, 0x1CE8);
  (0x1CED, 0x1CED); (0x1CF4, 0x1CF4); (0x1CF8, 0x1CF9); (0x1D2C, 0x1D6A); (0x1D78, 0x1D78); (0x1D9B, 0x1DFF);
  (0x1FBD, 0x1FBD); (0x1FBF, 0x1FC1); (0x1FCD, 0x1FCF); (0x1FDD, 0x1FDF); (0x1FED, 0x1FEF); (0x1FFD, 0x1FFE);
  (0x200B, 0x200F); (0x2018, 0x2019); (0x2024, 0x2024); (0x2027, 0x2027); (0x202A, 0x202E); (0x2060, 0x2064);
  (0x2066, 0x206F); (0x2071, 0x2071); (0x207F, 0x207F); (0x2090, 0x209C); (0x20D0, 0x20F0); (0x2C7C, 0x2C7D);
  (0x2CEF, 0x2CF1); (0x2D6F, 0x2D6F); (0x2D7F, 0x2D7F); (0x2DE0, 0x2DFF); (0x2E2F, 0x2E2F); (0x3005, 0x3005);
  (0x302A, 0x302D); (0x3031, 0x3035); (0x303B, 0x303B); (0x3099, 0x309E); (0x30FC, 0x30FE); (0xA015, 0xA015);
  (0xA4F8, 0xA4FD); (0xA60C, 0xA60C); (0xA66F, 0xA672); (0xA674, 0xA67D); (0xA67F, 0xA67F); (0xA69C, 0xA69F);
  (0xA6F0, 0xA6F1); (0xA700, 0xA721); (0xA770, 0xA770); (0xA788, 0xA78A); (0xA7F2, 0xA7F4); (0xA7F8, 0xA7F9);
  (0xA802, 0xA802); (0xA806, 0xA806); (0xA80B, 0xA80B); (0xA825, 0xA826); (0xA82C, 0xA82C); (0xA8C4, 0xA8C5);
  (0xA8E0, 0xA8F1); (0xA8FF, 0xA8FF); (0xA926, 0xA92D); (0xA947, 0xA951); (0xA980, 0xA982); (0xA9B3, 0xA9B3);
  (0xA9B6, 0xA9B9); (0xA9BC, 0xA9BD); (0xA9CF, 0xA9CF); (0xA9E5, 0xA9E6); (0xAA29, 0xAA2E); (0xAA31, 0xAA32);
  (0xAA35, 0xAA36); (0xAA43, 0xAA43); (0xAA4C, 0xAA4C); (0xAA70, 0xAA70); (0xAA7C, 0xAA7C); (0xAAB0, 0xAAB0);
  (0xAAB2, 0xAAB4); (0xAAB7, 0xAAB8); (0xAABE, 0xAABF); (0xAAC1, 0xAAC1); (0xAADD, 0xAADD); (0xAAEC, 0xAAED);
  (0xAAF3, 0xAAF4); (0xAAF6, 0xAAF6); (0xAB5B, 0xAB5F); (0xAB69, 0xAB6B); (0xABE5, 0xABE5); (0xABE8, 0xABE8);
  (0xABED, 0xABED); (0xFB1E, 0xFB1E); (0xFBB2, 0xFBC2); (0xFE00, 0xFE0F); (0xFE13, 0xFE13); (0xFE20, 0xFE2F);
  (0xFE52, 0xFE52); (0xFE55, 0xFE55); (0xFEFF, 0xFEFF); (0xFF07, 0xFF07); (0xFF0E, 0xFF0E); (0xFF1A, 0xFF1A);
  (0xFF3E, 0xFF3E); (0xFF40, 0xFF40); (0xFF70, 0xFF70); (0xFF9E, 0xFF9F); (0xFFE3, 0xFFE3); (0xFFF9, 0xFFFB);
  (0x101FD, 0x101FD); (0x102E0, 0x102E0); (0x10376, 0x1037A); (0x10780, 0x10785); (0x10787, 0x107B0); (0x107B2, 0x107BA);
  (0x10A01, 0x10A03); (0x10A05, 0x10A06); (0x10A0C, 0x10A0F); (0x10A38, 0x10A3A); (0x10A3F, 0x10A3F); (0x10AE5, 0x10AE6);
  (0x10D24, 0x10D27); (0x10EAB, 0x10EAC); (0x10F46, 0x10F50); (0x10F82, 0x10F85); (0x11001, 0x11001); (0x11038, 0x11046);
  (0x11070, 0x11070); (0x11073, 0x11074); (0x1107F, 0x11081); (0x110B3, 0x110B6); (0x110B9, 0x110BA); (0x110BD, 0x110BD);
  (0x110C2, 0x110C2); (0x110CD, 0x110CD); (0x11100, 0x11102); (0x11127, 0x1112B); (0x1112D, 0x11134); (0x11173, 0x11173);
  (0x11180, 0x11181); (0x111B6, 0x111BE); (0x111C9, 0x111CC); (0x111CF, 0x111CF); (0x1122F, 0x11231); (0x11234, 0x11234);
  (0x11236, 0x11237); (0x1123E, 0x1123E); (0x112DF, 0x112DF); (0x112E3, 0x112EA); (0x11300, 0x11301); (0x1133B, 0x1133C);
  (0x11340, 0x11340); (0x11366, 0x1136C); (0x11370, 0x11374); (0x11438, 0x1143F); (0x11442, 0x11444); (0x11446, 0x11446);
  (0x1145E, 0x1145E); (0x114B3, 0x114B8); (0x114BA, 0x114BA); (0x114BF, 0x114C0); (0x114C2, 0x114C3); (0x115B2, 0x115B5);
  (0x115BC, 0x115BD); (0x115BF, 0x115C0); (0x115DC, 0x115DD); (0x11633, 0x1163A); (0x1163D, 0x1163D); (0x1163F, 0x11640);
  (0x116AB, 0x116AB); (0x116AD, 0x116AD); (0x116B0, 0x116B5); (0x116B7, 0x116B7); (0x1171D, 0x1171F); (0x11722, 0x11725);
  (0x11727, 0x1172B); (0x1182F, 0x11837); (0x11839, 0x1183A); (0x1193B, 0x1193C); (0x1193E, 0x1193E); (0x11943, 0x11943);
  (0x119D4, 0x119D7); (0x119DA, 0x119DB); (0x119E0, 0x119E0); (0x11A01, 0x11A0A); (0x11A33, 0x11A38); (0x11A3B, 0x11A3E);
  (0x11A47, 0x11A47); (0x11A51, 0x11A56); (0x11A59, 0x11A5B); (0x11A8A, 0x11A96); (0x11A98, 0x11A99); (0x11C30, 0x11C36);
  (0x11C38, 0x11C3D); (0x11C3F, 0x11C3F); (0x11C92, 0x11CA7); (0x11CAA, 0x11CB0); (0x11CB2, 0x11CB3); (0x11CB5, 0x11CB6);
  (0x11D31, 0x11D36); (0x11D3A, 0x11D3A); (0x11D3C, 0x11D3D); (0x11D3F, 0x11D45); (0x11D47, 0x11D47); (0x11D90, 0x11D91);
  (0x11D95, 0x11D95); (0x11D97, 0x11D97); (0x11EF3, 0x11EF4); (0x13430, 0x13438); (0x16AF0, 0x16AF4); (0x16B30, 0x16B36);
  (0x16B40, 0x16B43); (0x16F4F, 0x16F4F); (0x16F8F, 0x16F9F); (0x16FE0, 0x16FE1); (0x16FE3, 0x16FE4); (0x1AFF0, 0x1AFF3);
  (0x1AFF5, 0x1AFFB); (0x1AFFD, 0x1AFFE); (0x1BC9D, 0x1BC9E); (0x1BCA0, 0x1BCA3); (0x1CF00, 0x1CF2D); (0x1CF30, 0x1CF46);
  (0x1D167, 0x1D169); (0x1D173, 0x1D182); (0x1D185, 0x1D18B); (0x1D1AA, 0x1D1AD); (0x1D242, 0x1D244); (0x1DA00, 0x1DA36);
  (0x1DA3B, 0x1DA6C); (0x1DA75, 0x1DA75); (0x1DA84, 0x1DA84); (0x1DA9B, 0x1DA9F); (0x1DAA1, 0x1DAAF); (0x1E000, 0x1E006);
  (0x1E008, 0x1E018); (0x1E01B, 0x1E021); (0x1E023, 0x1E024); (0x1E026, 0x1E02A); (0x1E130, 0x1E13D); (0x1E2AE, 0x1E2AE);
  (0x1E2EC, 0x1E2EF); (0x1E8D0, 0x1E8D6); (0x1E944, 0x1E94B); (0x1F3FB, 0x1F3FF); (0xE0001, 0xE0001); (0xE0020, 0xE007F);
  (0xE0100, 0xE01EF) ].

Definition in_ranges (rs : list (N * N)) (n : N) : bool :=
  existsb (fun '(a, b) => (a <=? n) && (n <=? b)) rs.

Fixpoint lower_simple (runs : list (N * N * N * N)) (n : N) : option N :=
  match runs with
  | [] => None
  | (first, count, stride, target) :: rest =>
      if (first <=? n) && (n <? first + count * stride)
         && (N.modulo (n - first) stride =? 0)
      then Some (target + (n - first))
      else lower_simple rest n
  end.

(** A decoded code point, or a byte outside any well-formed sequence. *)
Inductive uchar := UCp (cp : N) | UByte (b : ascii).

Definition cont (c : ascii) : bool :=
  let n := N_of_ascii c in (0x80 <=? n) && (n <? 0xC0).

Definition cv (c : ascii) : N := N_of_ascii c - 0x80.

Fixpoint decode (s : string) : list uchar :=
  match s with
  | EmptyString => []
  | String a t =>
      let b := N_of_ascii a in
      if b <? 0x80 then UCp b :: decode t
      else if (0xC0 <=? b) && (b <? 0xE0) then
        match t with
        | String c1 t1 =>
            if cont c1 && (0x80 <=? (b - 0xC0) * 64 + cv c1)
            then UCp ((b - 0xC0) * 64 + cv c1) :: decode t1
            else UByte a :: decode t
        | EmptyString => UByte a :: decode t
        end
      else if (0xE0 <=? b) && (b <? 0xF0) then
        match t with
        | String c1 (String c2 t2) =>
            if cont c1 && cont c2
               && (0x800 <=? ((b - 0xE0) * 64 + cv c1) * 64 + cv c2)
            then UCp (((b - 0xE0) * 64 + cv c1) * 64 + cv c2) :: decode t2
            else UByte a :: decode t
        | _ => UByte a :: decode t
        end
      else if (0xF0 <=? b) && (b <? 0xF8) then
        match t with
        | String c1 (String c2 (String c3 t3)) =>
            if cont c1 && cont c2 && cont c3
               && (0x10000 <=? (((b - 0xF0) * 64 + cv c1) * 64 + cv c2) * 64 + cv c3)
               && ((((b - 0xF0) * 64 + cv c1) * 64 + cv c2) * 64 + cv c3 <=? 0x10FFFF)
            then UCp ((((b - 0xF0) * 64 + cv c1) * 64 + cv c2) * 64 + cv c3) :: decode t3
            else UByte a :: decode t
        | _ => UByte a :: decode t
        end
      else UByte a :: decode t
  end.

Definition byte (n : N) (rest : string) : string := String (ascii_of_N n) rest.

Definition encode_cp (n : N) (rest : string) : string :=
  if n <? 0x80 then byte n rest
  else if n <? 0x800 then
    byte (0xC0 + n / 64) (byte (0x80 + n mod 64) rest)
  else if n <? 0x10000 then
    byte (0xE0 + n / 4096) (byte (0x80 + (n / 64) mod 64) (byte (0x80 + n mod 64) rest))
  else
    byte (0xF0 + n / 262144) (byte (0x80 + (n / 4096) mod 64)
      (byte (0x80 + (n / 64) mod 64) (byte (0x80 + n mod 64) rest))).

Fixpoint encode (l : list uchar) : string :=
  match l with
  | [] => EmptyString
  | UCp n :: r => encode_cp n (encode r)
  | UByte b :: r => String b (encode r)
  end.

Definition is_cased (u : uchar) : bool :=
  match u with UCp n => in_ranges cased_ranges n | UByte _ => false end.

Definition is_case_ignorable (u : uchar) : bool :=
  match u with UCp n => in_ranges case_ignorable_ranges n | UByte _ => false end.

(** The first element that is not case-ignorable exists and is cased
    (the elements are read from the sigma outwards). *)
Fixpoint cased_after_ignorable (l : list uchar) : bool :=
  match l with
  | [] => false
  | u :: r => if is_case_ignorable u then cased_after_ignorable r else is_cased u
  end.

Definition final_sigma (before after : list uchar) : bool :=
  cased_after_ignorable before && negb (cased_after_ignorable after).

Definition lower_cp (before : list uchar) (n : N) (after : list uchar) : list N :=
  if n <? 0x80 then [if (0x41 <=? n) && (n <=? 0x5A) then n + 32 else n]
  else if n =? 0x3A3 then [if final_sigma before after then 0x3C2 else 0x3C3]
  else if n =? 0x130 then [0x69; 0x307]
  else match lower_simple lower_runs n with Some m => [m] | None => [n] end.

(** [before] holds the code points already read, nearest first. *)
Fixpoint lower_list (before l : list uchar) : list uchar :=
  match l with
  | [] => []
  | UCp n :: r => map UCp (lower_cp before n r) ++ lower_list (UCp n :: before) r
  | UByte b :: r => UByte b :: lower_list (UByte b :: before) r
  end.

End Unicode.

(** [s.toLowerCase()]: the Unicode default lower-casing of the code
    points, the context-dependent final sigma included. *)
Definition toLowerCase (s : string) : string :=
  Unicode.encode (Unicode.lower_list [] (Unicode.decode s)).

(** [hay.includes(needle)]: [needle] occurs at some offset of [hay]. *)
Fixpoint includes (hay needle : string) : bool :=
  String.prefix needle hay ||
  match hay with
  | EmptyString => false
  | String _ t => includes t needle
  end.

(** [s.endsWith(suffix)]. *)
Definition endsWith (s suffix : string) : bool :=
  let ls := String.length s in
  let lx := String.length suffix in
  ((lx <=? ls)%nat && String.eqb (String.substring (ls - lx)%nat lx s) suffix)%bool.

(** JavaScript truthiness of a string: non-empty. *)
Definition truthy (s : string) : bool :=
  negb (String.eqb s EmptyString).

(** Truthiness of an optional string field ([undefined] is falsy). *)
Definition truthy_opt (o : option string) : bool :=
  match o with Some s => truthy s | None => false end.

End JsString.

Import JsString.

(* ------------------------------------------------------------------ *)
(** ** LocalizedError ([types/index.ts], as used throughout) *)

Inductive severity := Info | Warning | Error | Critical.

Scheme Equality for severity.

(** Values of the [context] object. *)
Inductive ctx_val := CStr (s : string) | CNum (n : Z).

Record LocalizedError := mkLocalizedError {
  code : string;
  message : string;
  germanMessage : string;
  le_severity : severity;
  recoverable : bool;
  recoverySuggestions : list string;
  context : option (list (string * ctx_val));
  timestamp : Z  (** [new Date()], as milliseconds since the epoch *)
}.

(* ------------------------------------------------------------------ *)
(** ** [germanErrorMessages] (the entries the classifier reads) *)

Module germanErrorMessages.
Definition pstFileNotFound := "PST-Datei nicht gefunden".
Definition pstInvalidFormat := "Ungültiges PST-Format".
Definition permissionDenied := "Zugriff verweigert".
Definition pdfGenerationFailed := "PDF-Erstellung fehlgeschlagen".
Definition pdfInsufficientSpace := "Nicht genügend Speicherplatz für PDF-Erstellung".
Definition directoryNotFound := "Verzeichnis nicht gefunden".
Definition processingCancelled := "Verarbeitung abgebrochen".
Definition ipcConnectionFailed := "Verbindung zum Backend fehlgeschlagen".
Definition unknownError := "Unbekannter Fehler aufgetreten".
Module recoverySuggestions.
Definition checkFileExists := "Überprüfen Sie, ob die Datei existiert".
Definition checkPermissions := "Überprüfen Sie die Dateiberechtigungen".
Definition checkDiskSpace := "Überprüfen Sie den verfügbaren Speicherplatz".
Definition selectDifferentFile := "Wählen Sie eine andere Datei aus".
Definition selectDifferentDirectory := "Wählen Sie ein anderes Verzeichnis aus".
Definition restartApplication := "Starten Sie die Anwendung neu".
Definition contactSupport := "Wenden Sie sich an den Support".
Definition tryAgainLater := "Versuchen Sie es später erneut".
End recoverySuggestions.
End germanErrorMessages.

Module GEM := germanErrorMessages.
Module RS := germanErrorMessages.recoverySuggestions.

(* ------------------------------------------------------------------ *)
(** ** [mapBackendErrorToGerman] (ErrorBoundary.tsx, lines 357-497)

    The timestamp [new Date()] is an input of the embedding. *)

Definition mapBackendErrorToGerman (now : Z) (errorMessage : string)
  : LocalizedError :=
  let timestamp := now in
  let lowerMessage := toLowerCase errorMessage in
  if includes lowerMessage "pst file not found"
     || includes lowerMessage "file not found" then
    mkLocalizedError "PST_FILE_NOT_FOUND" errorMessage GEM.pstFileNotFound
      Error true [RS.checkFileExists; RS.selectDifferentFile] None timestamp
  else if includes lowerMessage "invalid pst format"
          || includes lowerMessage "corrupted" then
    mkLocalizedError "PST_INVALID_FORMAT" errorMessage GEM.pstInvalidFormat
      Error true
      [RS.selectDifferentFile;
       "Überprüfen Sie, ob die PST-Datei nicht beschädigt ist"] None timestamp
  else if includes lowerMessage "permission denied"
          || includes lowerMessage "access denied" then
    mkLocalizedError "PERMISSION_DENIED" errorMessage GEM.permissionDenied
      Error true
      [RS.checkPermissions; "Führen Sie die Anwendung als Administrator aus"]
      None timestamp
  else if includes lowerMessage "pdf generation failed"
          || includes lowerMessage "pdf error" then
    mkLocalizedError "PDF_GENERATION_FAILED" errorMessage GEM.pdfGenerationFailed
      Error true [RS.checkDiskSpace; RS.checkPermissions] None timestamp
  else if includes lowerMessage "disk space"
          || includes lowerMessage "insufficient space" then
    mkLocalizedError "INSUFFICIENT_DISK_SPACE" errorMessage GEM.pdfInsufficientSpace
      Error true [RS.checkDiskSpace; "Löschen Sie nicht benötigte Dateien"]
      None timestamp
  else if includes lowerMessage "directory not found"
          || includes lowerMessage "invalid directory" then
    mkLocalizedError "DIRECTORY_NOT_FOUND" errorMessage GEM.directoryNotFound
      Error true
      [RS.selectDifferentDirectory; "Erstellen Sie das Verzeichnis manuell"]
      None timestamp
  else if includes lowerMessage "processing cancelled"
          || includes lowerMessage "cancelled" then
    mkLocalizedError "PROCESSING_CANCELLED" errorMessage GEM.processingCancelled
      Info true ["Starten Sie die Verarbeitung erneut, wenn gewünscht"]
      None timestamp
  else if includes lowerMessage "connection" || includes lowerMessage "ipc"
          || includes lowerMessage "backend" then
    mkLocalizedError "IPC_CONNECTION_FAILED" errorMessage GEM.ipcConnectionFailed
      Critical true [RS.restartApplication; RS.contactSupport] None timestamp
  else
    mkLocalizedError "UNKNOWN_ERROR" errorMessage
      (GEM.unknownError ++ ": " ++ errorMessage)
      Error false [RS.tryAgainLater; RS.restartApplication] None timestamp.

(** JavaScript [x < y] on finite numbers. *)
Definition Qltb (x y : Q) : bool := negb (Qle_bool y x).

(* ------------------------------------------------------------------ *)
(** ** Data model ([types/index.ts]) *)

Record ProcessingConfig := mkProcessingConfig {
  pstFilePath : string;
  emailsPerPdf : Q;
  baseFileName : string;
  outputDirectory : string
}.

Record ProcessingProgress := mkProcessingProgress {
  totalEmails : Z;
  processedEmails : Z;
  currentPdf : Z;
  status : string;
  isComplete : bool;
  error : option string  (** [error?: string]; [None] is [undefined] *)
}.

(** [germanText.progress.messages] (lib/localization.ts). *)
Module progress_messages.
Definition ready := "Bereit für Verarbeitung".
Definition starting := "Verarbeitung wird gestartet...".
Definition cancelled := "Verarbeitung abgebrochen".
End progress_messages.

(* ------------------------------------------------------------------ *)
(** ** The top-level controller [App] (App.tsx)

    The component state is one record per [useState] slot.  A user or
    backend event runs one handler, whose state setters are batched; React
    then commits the new state and runs the effects whose dependency
    values changed since the previous commit. *)

Module App.

Inductive Step := file | config_step | process | progress_step.

Scheme Equality for Step.

Record State := mkState {
  selectedFile : string;
  config : option ProcessingConfig;
  isProcessing : bool;
  progress : ProcessingProgress;
  currentStep : Step;
  globalError : option LocalizedError
}.

Definition ready_progress : ProcessingProgress :=
  mkProcessingProgress 0 0 0 progress_messages.ready false None.

(** The initial values of the [useState] calls. *)
Definition initial : State :=
  mkState "" None false ready_progress file None.

(** The props the components below [App] receive as callbacks, plus
    [DeliverProgress]: a [setProgress] with an arbitrary snapshot, the
    channel through which the (not yet written) backend would report
    progress.  No handler of the source calls [setProgress] with any
    other snapshot than the ones below. *)
Inductive Event :=
| FileSelect (filePath : string)          (** [handleFileSelect] *)
| ConfigChange (newConfig : ProcessingConfig)  (** [handleConfigChange] *)
| StartProcessing                         (** [handleStartProcessing] *)
| CancelProcessing                        (** [handleCancelProcessing] *)
| ResetApp                                (** [handleReset] *)
| Retry                                   (** [handleRetry] *)
| DismissError                            (** [onDismiss] of [ErrorDisplay] *)
| DeliverProgress (p : ProcessingProgress).

(** State setters used by the handlers. *)
Definition setSelectedFile (v : string) (s : State) : State :=
  mkState v (config s) (isProcessing s) (progress s) (currentStep s) (globalError s).
Definition setConfig (v : option ProcessingConfig) (s : State) : State :=
  mkState (selectedFile s) v (isProcessing s) (progress s) (currentStep s) (globalError s).
Definition setIsProcessing (v : bool) (s : State) : State :=
  mkState (selectedFile s) (config s) v (progress s) (currentStep s) (globalError s).
Definition setProgress (f : ProcessingProgress -> ProcessingProgress) (s : State) : State :=
  mkState (selectedFile s) (config s) (isProcessing s) (f (progress s)) (currentStep s) (globalError s).
Definition setCurrentStep (v : Step) (s : State) : State :=
  mkState (selectedFile s) (config s) (isProcessing s) (progress s) v (globalError s).
Definition setGlobalError (v : option LocalizedError) (s : State) : State :=
  mkState (selectedFile s) (config s) (isProcessing s) (progress s) (currentStep s) v.

(** The bodies of the [try] blocks only call state setters and
    [console.log], so the [catch] branches are never taken. *)

Definition handleFileSelect (filePath : string) (s : State) : State :=
  let s := setSelectedFile filePath s in
  let s := setGlobalError None s in
  let s := setConfig None s in
  let s := setProgress (fun _ => ready_progress) s in
  setCurrentStep config_step s.

Definition handleConfigChange (newConfig : ProcessingConfig) (s : State) : State :=
  let updatedConfig :=
    mkProcessingConfig (selectedFile s) (emailsPerPdf newConfig)
      (baseFileName newConfig) (outputDirectory newConfig) in
  let s := setConfig (Some updatedConfig) s in
  let s := setGlobalError None s in
  if truthy (baseFileName updatedConfig) && truthy (outputDirectory updatedConfig)
     && Qltb 0 (emailsPerPdf updatedConfig)
  then setCurrentStep process s else s.

Definition handleStartProcessing (s : State) : State :=
  match config s with
  | None => s
  | Some _ =>
      let s := setIsProcessing true s in
      let s := setCurrentStep progress_step s in
      let s := setGlobalError None s in
      setProgress (fun prev =>
        mkProcessingProgress (totalEmails prev) (processedEmails prev)
          (currentPdf prev) progress_messages.starting false None) s
  end.

Definition handleCancelProcessing (s : State) : State :=
  let s := setIsProcessing false s in
  let s := setCurrentStep process s in
  setProgress (fun prev =>
    mkProcessingProgress (totalEmails prev) (processedEmails prev)
      (currentPdf prev) progress_messages.cancelled false
      (Some progress_messages.cancelled)) s.

Definition handleReset (s : State) : State :=
  let s := setSelectedFile "" s in
  let s := setConfig None s in
  let s := setIsProcessing false s in
  let s := setGlobalError None s in
  let s := setProgress (fun _ => ready_progress) s in
  setCurrentStep file s.

Definition handleRetry (s : State) : State :=
  match config s with
  | Some _ => handleStartProcessing s
  | None => s
  end.

Definition handle (e : Event) (s : State) : State :=
  match e with
  | FileSelect f => handleFileSelect f s
  | ConfigChange c => handleConfigChange c s
  | StartProcessing => handleStartProcessing s
  | CancelProcessing => handleCancelProcessing s
  | ResetApp => handleReset s
  | Retry => handleRetry s
  | DismissError => setGlobalError None s
  | DeliverProgress p => setProgress (fun _ => p) s
  end.

(** [Object.is] on the dependency values. *)
Definition opt_string_eqb (a b : option string) : bool :=
  match a, b with
  | Some x, Some y => String.eqb x y
  | None, None => true
  | _, _ => false
  end.

(** [useEffect(..., [selectedFile])]: reset to file selection. *)
Definition effect_reset (prev next : State) (s : State) : State :=
  if negb (String.eqb (selectedFile prev) (selectedFile next)) then
    if negb (truthy (selectedFile next)) then
      setConfig None (setCurrentStep file s)
    else s
  else s.

(** [useEffect(..., [progress.isComplete, progress.error])]. *)
Definition effect_completion (prev next : State) (s : State) : State :=
  if negb (Bool.eqb (isComplete (progress prev)) (isComplete (progress next))
           && opt_string_eqb (error (progress prev)) (error (progress next))) then
    if isComplete (progress next) || truthy_opt (error (progress next)) then
      setIsProcessing false s
    else s
  else s.

(** Commit of a render: the effects run in declaration order against
    the rendered values [next].  Their setters touch neither
    [selectedFile] nor [progress], so the re-render they cause runs no
    effect again. *)
Definition commit (prev next : State) : State :=
  effect_completion prev next (effect_reset prev next next).

Definition dispatch (s : State) (e : Event) : State :=
  commit s (handle e s).

(** States the application can be in. *)
Inductive reachable : State -> Prop :=
| reachable_initial : reachable initial
| reachable_step s e : reachable s -> reachable (dispatch s e).

(** [canStartProcessing]. *)
Definition canStartProcessing (s : State) : bool :=
  match config s with
  | Some c =>
      truthy (pstFilePath c) && truthy (baseFileName c)
      && truthy (outputDirectory c) && Qltb 0 (emailsPerPdf c)
      && negb (isProcessing s)
  | None => false
  end.

(** A progress snapshot that ends a run. *)
Definition finished (p : ProcessingProgress) : bool :=
  isComplete p || truthy_opt (error p).

(** A running wizard has an unfinished progress. *)
Definition running_unfinished (s : State) : Prop :=
  isProcessing s = true -> finished (progress s) = false.

End App.

(* ------------------------------------------------------------------ *)
(** ** [ProcessControl] (ProcessControl.tsx)

    Its own state is [showCancelDialog]; a handler returns the new value
    of it and the callbacks of [App] it invokes, in order. *)

Module ProcessControl.

Inductive Event :=
| StartClick                 (** [onClick={handleStart}] *)
| OpenChange (open_ : bool)  (** [onOpenChange={setShowCancelDialog}] *)
| CancelDialog               (** [AlertDialogCancel onClick={handleCancelDialog}] *)
| CancelConfirm.             (** [AlertDialogAction onClick={handleCancelConfirm}] *)

Definition handle (canStart isProcessing : bool) (showCancelDialog : bool)
  (e : Event) : bool * list App.Event :=
  match e with
  | StartClick =>
      if negb canStart || isProcessing then (showCancelDialog, [])
      else (showCancelDialog, [App.StartProcessing])
  | OpenChange b => (b, [])
  | CancelDialog => (false, [])
  | CancelConfirm => (false, [App.CancelProcessing])
  end.

(** One event on the [ProcessControl] rendered by [App] in state [s]:
    the invoked callbacks run in the same batch as the local update. *)
Definition step (s : App.State) (showCancelDialog : bool) (e : Event)
  : App.State * bool :=
  let '(show', calls) :=
    handle (App.canStartProcessing s) (App.isProcessing s) showCancelDialog e in
  (App.commit s (fold_left (fun st ev => App.handle ev st) calls s), show').

End ProcessControl.

(* ------------------------------------------------------------------ *)
(** ** [FileSelector] (components/FileSelector.tsx) *)

Module FileSelector.

(** The fields of a DOM [File] the component reads. *)
Record File := mkFile { name : string; size : Z }.

Definition file_context (f : File) : option (list (string * ctx_val)) :=
  Some [("fileName", CStr (name f)); ("fileSize", CNum (size f))].

Definition validatePstFile (now : Z) (file : File) : option LocalizedError :=
  let timestamp := now in
  if negb (endsWith (toLowerCase (name file)) ".pst") then
    Some (mkLocalizedError "INVALID_FILE_EXTENSION" "File must be a PST file"
      "Datei muss eine PST-Datei sein (.pst)" Error true
      ["Wählen Sie eine Datei mit der Erweiterung .pst aus";
       "Überprüfen Sie, ob es sich um eine Microsoft Outlook PST-Datei handelt"]
      (file_context file) timestamp)
  else if Z.eqb (size file) 0 then
    Some (mkLocalizedError "PST_FILE_EMPTY" "PST file is empty or corrupted"
      "PST-Datei ist leer oder beschädigt" Error true
      ["Wählen Sie eine andere PST-Datei aus";
       "Überprüfen Sie, ob die Datei nicht beschädigt ist";
       "Stellen Sie sicher, dass die Datei vollständig heruntergeladen wurde"]
      (file_context file) timestamp)
  else if Z.ltb (size file) 1024 then
    Some (mkLocalizedError "PST_FILE_TOO_SMALL" "PST file seems too small"
      "PST-Datei scheint zu klein zu sein" Warning true
      ["Überprüfen Sie, ob es sich um eine vollständige PST-Datei handelt";
       "Wählen Sie eine andere PST-Datei aus, falls verfügbar"]
      (file_context file) timestamp)
  else None.

(** Local state and the outside effects of a handler: the errors passed
    to [logError] and the paths passed to [onFileSelect]. *)
Record Out := mkOut {
  local_error : option LocalizedError;
  logged : list LocalizedError;
  committed : list string
}.

Definition handleFileSelect (now : Z) (error : option LocalizedError)
  (file : File) : Out :=
  match validatePstFile now file with
  | Some validationError => mkOut (Some validationError) [validationError] []
  | None => mkOut None [] [name file]
  end.

(** The extension test of [validatePstFile]. *)
Definition pst_name (file : File) : bool :=
  endsWith (toLowerCase (name file)) ".pst".

End FileSelector.

(* ------------------------------------------------------------------ *)
(** ** [processingConfigSchema] (types/index.ts, lines 42-65)

    A zod object schema: every field is parsed, the issues of all fields
    are collected in field order, each tagged with its path.  String
    length checks are continuable, so a refinement still runs after a
    failed [min]; a type mismatch aborts its field.  [.default(10)]
    replaces an absent value before any check. *)

Module Schema.

Local Open Scope list_scope.

(** The JavaScript values a draft field may hold. *)
Inductive JsValue :=
| JsUndefined
| JsNumber (q : Q)
| JsNaN
| JsInfinity (positive : bool)  (* [Infinity] or [-Infinity] *)
| JsString (s : string)
| JsOther.

Record Draft := mkDraft {
  d_pstFilePath : JsValue;
  d_emailsPerPdf : JsValue;
  d_baseFileName : JsValue;
  d_outputDirectory : JsValue
}.

(** A field parses to a value or to its issue messages. *)
Definition result (A : Type) := (list string + A)%type.

Definition checks {A} (v : A) (issues : list string) : result A :=
  match issues with [] => inr v | _ => inl issues end.

Definition check (ok : bool) (msg : string) : list string :=
  if ok then [] else [msg].

(** [z.string()] with its default type message. *)
Definition string_field (v : JsValue) (k : string -> list string)
  : result string :=
  match v with
  | JsString s => checks s (k s)
  | _ => inl ["Invalid input: expected string"]
  end.

Definition pstFilePath_field (v : JsValue) : result string :=
  string_field v (fun path =>
    check (Nat.leb 1 (String.length path)) "PST-Datei ist erforderlich"
    ++ check (endsWith (toLowerCase path) ".pst") "Datei muss eine PST-Datei sein").

(** [z.number()] of zod 4 accepts finite numbers only: NaN, the two
    infinities and non-numbers get its type message, and the [min] and
    [max] checks do not run after it. *)
Definition emailsPerPdf_field (v : JsValue) : result Q :=
  match v with
  | JsUndefined => inr 10%Q
  | JsNumber n =>
      checks n
        (check (Qle_bool 1 n) "Mindestens 1 E-Mail pro PDF erforderlich"
         ++ check (Qle_bool n 25) "Maximal 25 E-Mails pro PDF erlaubt")
  | _ => inl ["Anzahl muss eine Zahl sein"]
  end.

(** [/^[a-zA-Z0-9_-]+$/]. *)
Definition name_char (c : ascii) : bool :=
  let n := nat_of_ascii c in
  (((97 <=? n) && (n <=? 122)) || ((65 <=? n) && (n <=? 90))
  || ((48 <=? n) && (n <=? 57)) || (n =? 95) || (n =? 45))%nat.

Fixpoint all_chars (p : ascii -> bool) (s : string) : bool :=
  match s with
  | EmptyString => true
  | String c t => p c && all_chars p t
  end.

Definition name_regex (s : string) : bool :=
  (Nat.leb 1 (String.length s)) && all_chars name_char s.

Definition baseFileName_field (v : JsValue) : result string :=
  string_field v (fun s =>
    check (Nat.leb 1 (String.length s)) "Basis-Dateiname ist erforderlich"
    ++ check (name_regex s)
         "Dateiname darf nur Buchstaben, Zahlen, Unterstriche und Bindestriche enthalten").

(** [String.prototype.trim] on the ASCII white space characters. *)
Definition js_space (c : ascii) : bool :=
  let n := nat_of_ascii c in ((n =? 32) || ((9 <=? n) && (n <=? 13)))%nat.

Fixpoint trim_start (s : string) : string :=
  match s with
  | String c t => if js_space c then trim_start t else s
  | EmptyString => EmptyString
  end.

Fixpoint rev_string (s : string) : string :=
  match s with
  | EmptyString => EmptyString
  | String c t => rev_string t ++ String c EmptyString
  end.

Definition trim (s : string) : string :=
  rev_string (trim_start (rev_string (trim_start s))).

Definition outputDirectory_field (v : JsValue) : result string :=
  string_field v (fun path =>
    check (Nat.leb 1 (String.length path)) "Ausgabeverzeichnis ist erforderlich"
    ++ check (Nat.ltb 0 (String.length (trim path))) "Ausgabeverzeichnis darf nicht leer sein").

Definition issues_of {A} (path : string) (r : result A) : list (string * string) :=
  match r with inl ms => map (fun m => (path, m)) ms | inr _ => [] end.

(** [processingConfigSchema.safeParse(draft)]: the parsed configuration
    or the list of (path, message) issues. *)
Definition validateConfig (d : Draft) : (list (string * string) + ProcessingConfig)%type :=
  let p := pstFilePath_field (d_pstFilePath d) in
  let e := emailsPerPdf_field (d_emailsPerPdf d) in
  let b := baseFileName_field (d_baseFileName d) in
  let o := outputDirectory_field (d_outputDirectory d) in
  match p, e, b, o with
  | inr p', inr e', inr b', inr o' => inr (mkProcessingConfig p' e' b' o')
  | _, _, _, _ =>
      inl (issues_of "pstFilePath" p ++ issues_of "emailsPerPdf" e
           ++ issues_of "baseFileName" b ++ issues_of "outputDirectory" o)
  end.

(** The field parsed without issue. *)
Definition field_ok {A} (r : result A) : bool :=
  match r with inr _ => true | inl _ => false end.

End Schema.

(* ------------------------------------------------------------------ *)
(** ** The classifier as the spec describes it

    An ordered table of fingerprint groups (the substrings each [if] of
    [mapBackendErrorToGerman] tests, in the order of the source) with the
    classification (code, severity, recoverable) of the group.  The first
    group one of whose fingerprints occurs in the lower-cased message
    wins; no match gives the unknown classification. *)

Definition fingerprint_table : list (list string * (string * severity * bool)) :=
  [ (["pst file not found"; "file not found"], ("PST_FILE_NOT_FOUND", Error, true));
    (["invalid pst format"; "corrupted"], ("PST_INVALID_FORMAT", Error, true));
    (["permission denied"; "access denied"], ("PERMISSION_DENIED", Error, true));
    (["pdf generation failed"; "pdf error"], ("PDF_GENERATION_FAILED", Error, true));
    (["disk space"; "insufficient space"], ("INSUFFICIENT_DISK_SPACE", Error, true));
    (["directory not found"; "invalid directory"], ("DIRECTORY_NOT_FOUND", Error, true));
    (["processing cancelled"; "cancelled"], ("PROCESSING_CANCELLED", Info, true));
    (["connection"; "ipc"; "backend"], ("IPC_CONNECTION_FAILED", Critical, true)) ].

Definition classifyBackendError_spec (rawMessage : string) : string * severity * bool :=
  let lower := toLowerCase rawMessage in
  match find (fun '(fps, _) => existsb (includes lower) fps) fingerprint_table with
  | Some (_, cls) => cls
  | None => ("UNKNOWN_ERROR", Error, false)
  end.

Definition classification (e : LocalizedError) : string * severity * bool :=
  (code e, le_severity e, recoverable e).

(* ------------------------------------------------------------------ *)
(** The wizard scenario of the spec: select, configure, start, finish. *)
Definition scenario_config : ProcessingConfig :=
  mkProcessingConfig "" 10 "emails_archiv" "/out".

Definition scenario_running : App.State :=
  App.dispatch
    (App.dispatch
       (App.dispatch App.initial (App.FileSelect "archive.pst"))
       (App.ConfigChange scenario_config))
    App.StartProcessing.

(* ------------------------------------------------------------------ *)
(** ** [generateRecoveryActions] (ErrorBoundary.tsx, lines 565-634)

    A callback of the context is modelled by its presence and its name;
    [primary] is [None] when the action literal has no such field. *)

Module Recovery.

Record RecoveryContext := mkRecoveryContext {
  onRetry : bool;
  onReset : bool;
  onSelectNewFile : bool;
  onSelectNewDirectory : bool
}.

(** The default argument [context = {}]. *)
Definition empty_context : RecoveryContext := mkRecoveryContext false false false false.

Inductive Callback := Retry | Reset | SelectNewFile | SelectNewDirectory.

Record ErrorRecoveryAction := mkAction {
  label : string;
  action : Callback;
  primary : option bool
}.

Definition reset_action : ErrorRecoveryAction := mkAction "Zurücksetzen" Reset None.

Definition generateRecoveryActions (error : LocalizedError) (context : RecoveryContext)
  : list ErrorRecoveryAction :=
  let c := code error in
  let actions :=
    if String.eqb c "PST_FILE_NOT_FOUND" || String.eqb c "PST_INVALID_FORMAT" then
      if onSelectNewFile context
      then [mkAction "Andere Datei wählen" SelectNewFile (Some true)] else []
    else if String.eqb c "DIRECTORY_NOT_FOUND" then
      if onSelectNewDirectory context
      then [mkAction "Anderes Verzeichnis wählen" SelectNewDirectory (Some true)] else []
    else if String.eqb c "PROCESSING_CANCELLED" then
      if onRetry context then [mkAction "Erneut versuchen" Retry (Some true)] else []
    else
      if onRetry context then [mkAction "Wiederholen" Retry None] else [] in
  (* Always add reset option for recoverable errors *)
  (actions ++ (if recoverable error && onReset context then [reset_action] else []))%list.

(** [recoveryActions] of [ErrorDisplay]: the context holds the callbacks
    the component received. *)
Definition errorDisplayActions (error : LocalizedError) (showRecoveryActions : bool)
  (context : RecoveryContext) : list ErrorRecoveryAction :=
  if showRecoveryActions then generateRecoveryActions error context else [].

End Recovery.

(* ------------------------------------------------------------------ *)
(** ** [ProgressDisplay] (ProgressDisplay.tsx) *)

Module ProgressDisplay.

Inductive Badge := BadgeError | BadgeComplete | BadgeProcessing | BadgeReady.

Definition getStatusBadge (progress : ProcessingProgress) (isProcessing : bool) : Badge :=
  if truthy_opt (error progress) then BadgeError
  else if isComplete progress then BadgeComplete
  else if isProcessing then BadgeProcessing
  else BadgeReady.

(** The [ProcessingErrorDisplay] rendered when [progress.error] is set:
    the classified error and its recovery actions ([showRecoveryActions]
    is [true]; only [onRetry] and [onReset] are passed on). *)
Definition errorArea (now : Z) (progress : ProcessingProgress)
  (hasRetry hasReset : bool) : option (LocalizedError * list Recovery.ErrorRecoveryAction) :=
  match error progress with
  | Some msg =>
      if truthy msg then
        let e := mapBackendErrorToGerman now msg in
        Some (e, Recovery.errorDisplayActions e true
                   (Recovery.mkRecoveryContext hasRetry hasReset false false))
      else None
  | None => None
  end.

(** [App] renders [ProgressDisplay] with [onRetry={handleRetry}] and
    [onReset={handleReset}], both defined. *)
Definition appErrorArea (now : Z) (s : App.State) :=
  errorArea now (App.progress s) true true.

Definition appBadge (s : App.State) : Badge :=
  getStatusBadge (App.progress s) (App.isProcessing s).

End ProgressDisplay.

(* ------------------------------------------------------------------ *)
(** ** The drag, drop and input handlers of [FileSelector]
    (FileSelector.tsx, lines 99-200)

    [isDragOver] is the hover flag; a bounding rectangle and the pointer
    position are numbers, here rationals. *)

Module FileInput.
Import FileSelector.

Definition handleDragOver (disabled : bool) (isDragOver : bool) : bool :=
  if negb disabled then true else isDragOver.

Record Rect := mkRect { left : Q; right : Q; top : Q; bottom : Q }.

Definition handleDragLeave (rect : Rect) (x y : Q) (isDragOver : bool) : bool :=
  if Qltb x (left rect) || Qltb (right rect) x || Qltb y (top rect)
     || Qltb (bottom rect) y
  then false else isDragOver.

Definition noFileError (now : Z) : LocalizedError :=
  mkLocalizedError "NO_FILE_DETECTED" "No file detected" "Keine Datei erkannt"
    Warning true
    ["Versuchen Sie, die Datei erneut zu ziehen";
     "Klicken Sie stattdessen auf 'Datei durchsuchen'"]
    None now.

Definition multipleFilesError (now : Z) (fileCount : nat) : LocalizedError :=
  mkLocalizedError "MULTIPLE_FILES_SELECTED" "Multiple files selected"
    "Bitte wählen Sie nur eine PST-Datei aus" Warning true
    ["Ziehen Sie nur eine einzelne PST-Datei";
     "Wählen Sie die gewünschte Datei einzeln aus"]
    (Some [("fileCount", CNum (Z.of_nat fileCount))]) now.

(** [handleDrop]: the new hover flag and the outside effects. *)
Definition handleDrop (now : Z) (disabled : bool) (error : option LocalizedError)
  (files : list File) : bool * Out :=
  let isDragOver := false in
  if disabled then (isDragOver, mkOut error [] [])
  else match files with
  | [] => (isDragOver, mkOut (Some (noFileError now)) [noFileError now] [])
  | [firstFile] => (isDragOver, handleFileSelect now error firstFile)
  | _ :: _ :: _ =>
      let e := multipleFilesError now (length files) in
      (isDragOver, mkOut (Some e) [e] [])
  end.

(** [handleFileInputChange]; [None] is a [null] file list. *)
Definition handleFileInputChange (now : Z) (error : option LocalizedError)
  (files : option (list File)) : Out :=
  match files with
  | None | Some [] => mkOut error [] []
  | Some (firstFile :: _) => handleFileSelect now error firstFile
  end.

End FileInput.

(* ------------------------------------------------------------------ *)
(** ** Icons and variants of [ErrorDisplay] (ErrorDisplay.tsx) *)

Module ErrorDisplayView.

Inductive Icon := RefreshCw | RotateCcw | FileText | FolderOpen.

Definition getActionIcon (action : Recovery.ErrorRecoveryAction) : option Icon :=
  let l := Recovery.label action in
  if includes l "Wiederholen" || includes l "Erneut" then Some RefreshCw
  else if includes l "Zurücksetzen" then Some RotateCcw
  else if includes l "Datei" then Some FileText
  else if includes l "Verzeichnis" then Some FolderOpen
  else None.

Inductive Variant := Destructive | Default.

Definition getAlertVariant (error : LocalizedError) : Variant :=
  match le_severity error with
  | Critical | Error => Destructive
  | Warning => Default
  | Info => Default
  end.

Definition severityLabel (s : severity) : string :=
  match s with
  | Critical => "Kritisch"
  | Error => "Fehler"
  | Warning => "Warnung"
  | Info => "Information"
  end.

End ErrorDisplayView.

(* ------------------------------------------------------------------ *)
(** ** Grouping of Zod issues by path
    ([transformZodErrorToGerman], ErrorBoundary.tsx lines 499-562;
    [transformZodError], types/index.ts lines 132-144)

    A path segment is a property key or an array index; [join] converts
    each one with [String()], so a segment is given here by that string.
    The bounds of [too_small] and [too_big] are likewise given by their
    [String()] rendering, the text the template literal inserts.

    The result object is built with [errors[path]]: for a key the object
    does not own, the lookup falls through to [Object.prototype], whose
    properties are all truthy and none of them an array, so the following
    [push] throws a [TypeError] ([None] here).  The object is an
    association list in insertion order; only lookups are stated about it. *)

Module Zod.

Record ZodIssue := mkZodIssue {
  iss_code : string;
  iss_message : string;
  iss_path : list string;
  iss_minimum : string;
  iss_maximum : string
}.

(** The properties of [Object.prototype]. *)
Definition object_prototype_names : list string :=
  ["constructor"; "__defineGetter__"; "__defineSetter__"; "hasOwnProperty";
   "__lookupGetter__"; "__lookupSetter__"; "isPrototypeOf";
   "propertyIsEnumerable"; "toString"; "valueOf"; "__proto__"; "toLocaleString"].

Definition inherited (k : string) : bool :=
  existsb (String.eqb k) object_prototype_names.

(** [Array.prototype.join(sep)] on strings. *)
Fixpoint join (sep : string) (l : list string) : string :=
  match l with
  | [] => ""
  | [x] => x
  | x :: rest => x ++ sep ++ join sep rest
  end.

Fixpoint own {A} (errors : list (string * list A)) (k : string) : option (list A) :=
  match errors with
  | [] => None
  | (k', vs) :: rest => if String.eqb k k' then Some vs else own rest k
  end.

(** [errors[k]] read as an array: the own value, or nothing. *)
Definition lookup {A} (errors : list (string * list A)) (k : string) : list A :=
  match own errors k with Some vs => vs | None => [] end.

Fixpoint push_own {A} (errors : list (string * list A)) (k : string) (v : A)
  : list (string * list A) :=
  match errors with
  | [] => []
  | (k', vs) :: rest =>
      if String.eqb k k' then (k', (vs ++ [v])%list) :: rest
      else (k', vs) :: push_own rest k v
  end.

(** [if (!errors[path]) errors[path] = []; errors[path].push(v)]. *)
Definition pushAt {A} (errors : list (string * list A)) (path : string) (v : A)
  : option (list (string * list A)) :=
  match own errors path with
  | Some _ => Some (push_own errors path v)
  | None =>
      if inherited path then None
      else Some ((errors ++ [(path, [v])])%list)
  end.

(** [germanErrorMessages.validationInvalidType]. *)
Definition validationInvalidType := "Ungültiger Datentyp".

Definition germanIssue (timestamp : Z) (path : string) (issue : ZodIssue)
  : LocalizedError :=
  let c := iss_code issue in
  let '(germanMessage, code, recoverySuggestions) :=
    if String.eqb c "invalid_type" then
      (validationInvalidType, "VALIDATION_INVALID_TYPE",
       ["Überprüfen Sie den eingegebenen Wert"])
    else if String.eqb c "too_small" then
      (if includes (iss_message issue) "String"
       then "Mindestens " ++ iss_minimum issue ++ " Zeichen erforderlich"
       else "Wert muss mindestens " ++ iss_minimum issue ++ " sein",
       "VALIDATION_TOO_SMALL", ["Geben Sie einen größeren Wert ein"])
    else if String.eqb c "too_big" then
      (if includes (iss_message issue) "String"
       then "Maximal " ++ iss_maximum issue ++ " Zeichen erlaubt"
       else "Wert darf maximal " ++ iss_maximum issue ++ " sein",
       "VALIDATION_TOO_BIG", ["Geben Sie einen kleineren Wert ein"])
    else if String.eqb c "invalid_format" then
      ("Ungültiges Format", "VALIDATION_INVALID_STRING",
       ["Verwenden Sie nur erlaubte Zeichen"])
    else if String.eqb c "custom" then
      (iss_message issue, "VALIDATION_CUSTOM", [])
    else (iss_message issue, "VALIDATION_ERROR", []) in
  mkLocalizedError code (iss_message issue) germanMessage Warning true
    recoverySuggestions
    (Some [("path", CStr path); ("zodCode", CStr c)]) timestamp.

(** The key of an issue: [issue.path.join(".") || "root"]. *)
Definition german_path (issue : ZodIssue) : string :=
  let p := join "." (iss_path issue) in
  if truthy p then p else "root".

Definition transformZodErrorToGerman (now : Z) (issues : list ZodIssue)
  : option (list (string * list LocalizedError)) :=
  let timestamp := now in
  fold_left (fun acc issue =>
      match acc with
      | None => None
      | Some errors =>
          let path := german_path issue in
          pushAt errors path (germanIssue timestamp path issue)
      end) issues (Some []).

Definition transformZodError (issues : list ZodIssue)
  : option (list (string * list string)) :=
  fold_left (fun acc err =>
      match acc with
      | None => None
      | Some errors =>
          let path := join "." (iss_path err) in
          pushAt errors path (iss_message err)
      end) issues (Some []).

(** [errorCount] of [ValidationErrorDisplay]:
    [Object.values(errors).flat().length]. *)
Definition errorCount {A} (errors : list (string * list A)) : nat :=
  length (concat (map snd errors)).

End Zod.

(* ------------------------------------------------------------------ *)
(** ** [getGermanText] and [interpolate] (lib/localization.ts)

    A JavaScript value reached by [getGermanText] is a string, an object
    literal (an association list; the literal [germanText] has no
    repeated key), or a property inherited from [Object.prototype]
    ([JInherited]).  The inherited properties are functions, the
    prototype object itself and [null]; none is a string and none leads
    to one, so a walk through one ends in the fallback, which is what the
    step below returns for it. *)

Module Localization.

#[warnings="-register-all"]
Inductive JsVal := JStr (s : string) | JObj (fields : list (string * JsVal)) | JInherited.

Definition dq : string := String "034"%char EmptyString.

Definition germanText : JsVal :=
JObj [
  ("appTitle", JStr "PST E-Mail Merger");
  ("appDescription", JStr "Wählen Sie eine PST-Datei aus und konfigurieren Sie die Verarbeitung");
  ("steps", JObj [
    ("fileSelection", JStr "PST-Datei auswählen");
    ("configuration", JStr "Konfiguration");
    ("processing", JStr "Verarbeitung starten");
    ("progress", JStr "Fortschritt")]);
  ("fileSelection", JObj [
    ("title", JStr "PST-Datei auswählen");
    ("selectFile", JStr "PST-Datei auswählen");
    ("fileSelected", JStr "PST-Datei ausgewählt");
    ("dragDropText", JStr "PST-Datei hierher ziehen oder klicken zum Auswählen");
    ("dragDropActive", JStr "PST-Datei hier ablegen...");
    ("browseFiles", JStr "Datei durchsuchen");
    ("fileReady", JStr "PST-Datei bereit");
    ("selectDifferentFile", JStr "Klicken Sie hier, um eine andere Datei auszuwählen");
    ("supportedFiles", JStr "Nur PST-Dateien (.pst) werden unterstützt")]);
  ("configuration", JObj [
    ("title", JStr "Konfiguration");
    ("emailsPerPdf", JObj [
      ("label", JStr "E-Mails pro PDF");
      ("description", JStr "Anzahl der E-Mails, die in eine PDF-Datei zusammengefasst werden (1-25)");
      ("placeholder", JStr "10")]);
    ("baseFileName", JObj [
      ("label", JStr "Basis-Dateiname");
      ("description", JStr "Grundname für die generierten PDF-Dateien (nur Buchstaben, Zahlen, _ und -)");
      ("placeholder", JStr "z.B. emails_archiv")]);
    ("outputDirectory", JObj [
      ("label", JStr "Ausgabeverzeichnis");
      ("description", JStr "Wählen Sie das Verzeichnis aus, in dem die PDF-Dateien gespeichert werden sollen");
      ("placeholder", JStr "Verzeichnis auswählen...");
      ("browse", JStr "Durchsuchen");
      ("selecting", JStr "Auswählen...");
      ("selected", JStr "Verzeichnis ausgewählt");
      ("writable", JStr "Schreibbar");
      ("fullPath", JStr "Vollständiger Pfad:")]);
    ("preview", JObj [
      ("label", JStr "Vorschau:");
      ("filename", JStr "Dateiname-Vorschau")]);
    ("status", JObj [
      ("label", JStr "Konfigurationsstatus:");
      ("ready", JStr "Bereit");
      ("incomplete", JStr "Unvollständig");
      ("allValid", JStr "Alle Eingaben sind gültig. Sie können mit der Verarbeitung beginnen.")])]);
  ("processControl", JObj [
    ("title", JStr "Verarbeitung");
    ("startButton", JStr "Verarbeitung starten");
    ("startButtonProcessing", JStr "Verarbeitung läuft...");
    ("cancelButton", JStr "Abbrechen");
    ("cancelDialog", JObj [
      ("title", JStr "Verarbeitung abbrechen?");
      ("description", JStr "Sind Sie sicher, dass Sie die Verarbeitung abbrechen möchten? Bereits erstellte PDF-Dateien bleiben erhalten, aber der aktuelle Vorgang wird gestoppt und kann nicht fortgesetzt werden.");
      ("continue", JStr "Fortsetzen");
      ("confirm", JStr "Ja, abbrechen")]);
    ("status", JObj [
      ("notReady", JStr "Bitte vervollständigen Sie alle Eingaben, um die Verarbeitung zu starten.");
      ("ready", JStr "Alle Eingaben sind gültig. Bereit zum Starten der Verarbeitung.");
      ("processing", JStr "Verarbeitung läuft. Sie können den Vorgang jederzeit abbrechen.")])]);
  ("progress", JObj [
    ("title", JStr "Verarbeitungsfortschritt");
    ("percentage", JStr "Fortschritt");
    ("badges", JObj [
      ("error", JStr "Fehler");
      ("completed", JStr "Abgeschlossen");
      ("processing", JStr "Verarbeitung läuft");
      ("ready", JStr "Bereit")]);
    ("stats", JObj [
      ("total", JStr "Gesamt");
      ("processed", JStr "Verarbeitet");
      ("pdfs", JStr "PDF-Dateien")]);
    ("messages", JObj [
      ("ready", JStr "Bereit für Verarbeitung");
      ("starting", JStr "Verarbeitung wird gestartet...");
      ("processing", JStr "Verarbeitung läuft...");
      ("processingEmails", JStr "Verarbeite E-Mail {processed} von {total}. Erstelle PDF {current}...");
      ("completed", JStr "Verarbeitung erfolgreich abgeschlossen. {count} PDF-Dateien erstellt.");
      ("error", JStr "Fehler: {error}");
      ("cancelled", JStr "Verarbeitung abgebrochen")])]);
  ("errors", JObj [
    ("title", JStr "Fehler aufgetreten");
    ("inputErrors", JStr "Eingabefehler");
    ("inputErrorsCount", JStr "{count} {count, plural, one {Fehler} other {Fehler}}");
    ("technicalDetails", JStr "Technische Details (nur in Entwicklung)");
    ("suggestions", JStr "Lösungsvorschläge:");
    ("actions", JObj [
      ("dismiss", JStr "Schließen");
      ("retry", JStr "Wiederholen");
      ("retryAgain", JStr "Erneut versuchen");
      ("reset", JStr "Zurücksetzen");
      ("selectNewFile", JStr "Andere Datei wählen");
      ("selectNewDirectory", JStr "Anderes Verzeichnis wählen")]);
    ("fields", JObj [
      ("pstFilePath", JStr "PST-Datei");
      ("emailsPerPdf", JStr "E-Mails pro PDF");
      ("baseFileName", JStr "Basis-Dateiname");
      ("outputDirectory", JStr "Ausgabeverzeichnis")])]);
  ("errorBoundary", JObj [
    ("title", JStr "Anwendungsfehler");
    ("subtitle", JStr "Ein unerwarteter Fehler ist aufgetreten");
    ("description", JStr "Die Anwendung ist auf einen Fehler gestoßen und konnte nicht fortgesetzt werden. Dies ist ein technisches Problem, das behoben werden muss.");
    ("developmentDetails", JStr "Entwicklungsdetails");
    ("showDetails", JStr "Technische Fehlerdetails anzeigen");
    ("actions", JObj [
      ("retry", JStr "Erneut versuchen");
      ("reload", JStr "Anwendung neu laden");
      ("report", JStr "Fehlerbericht erstellen")]);
    ("help", JObj [
      ("tip", JStr ("Tipp: Versuchen Sie zunächst " ++ dq ++ "Erneut versuchen" ++ dq ++ ". Falls der Fehler weiterhin auftritt, laden Sie die Anwendung neu."));
      ("persistent", JStr "Falls das Problem bestehen bleibt, erstellen Sie einen Fehlerbericht und wenden Sie sich an den Support.");
      ("errorId", JStr "Fehler-ID:")]);
    ("reportSuccess", JStr "Fehlerbericht wurde in die Zwischenablage kopiert. Bitte senden Sie ihn an den Support.");
    ("reportFailed", JStr "Fehlerbericht konnte nicht kopiert werden. Bitte machen Sie einen Screenshot dieser Seite.")]);
  ("debug", JObj [
    ("title", JStr "Debug Information (Development Only)");
    ("currentStep", JStr "Current Step:");
    ("selectedFile", JStr "Selected File:");
    ("configValid", JStr "Config Valid:");
    ("canStartProcessing", JStr "Can Start Processing:");
    ("isProcessing", JStr "Is Processing:");
    ("progressComplete", JStr "Progress Complete:");
    ("none", JStr "None");
    ("yes", JStr "Yes");
    ("no", JStr "No")]);
  ("common", JObj [
    ("loading", JStr "Laden...");
    ("saving", JStr "Speichern...");
    ("cancel", JStr "Abbrechen");
    ("confirm", JStr "Bestätigen");
    ("close", JStr "Schließen");
    ("ok", JStr "OK");
    ("yes", JStr "Ja");
    ("no", JStr "Nein");
    ("continue", JStr "Fortsetzen");
    ("back", JStr "Zurück");
    ("next", JStr "Weiter");
    ("finish", JStr "Fertig");
    ("save", JStr "Speichern");
    ("delete", JStr "Löschen");
    ("edit", JStr "Bearbeiten");
    ("view", JStr "Anzeigen");
    ("download", JStr "Herunterladen");
    ("upload", JStr "Hochladen");
    ("search", JStr "Suchen");
    ("filter", JStr "Filtern");
    ("sort", JStr "Sortieren");
    ("refresh", JStr "Aktualisieren");
    ("settings", JStr "Einstellungen");
    ("help", JStr "Hilfe");
    ("about", JStr "Über");
    ("version", JStr "Version")]);
  ("dateTime", JObj [
    ("formats", JObj [
      ("short", JStr "dd.MM.yyyy");
      ("long", JStr "dd. MMMM yyyy");
      ("time", JStr "HH:mm");
      ("dateTime", JStr "dd.MM.yyyy HH:mm");
      ("iso", JStr "yyyy-MM-dd'T'HH:mm:ss")]);
    ("relative", JObj [
      ("now", JStr "Jetzt");
      ("secondsAgo", JStr "vor {seconds} Sekunden");
      ("minutesAgo", JStr "vor {minutes} Minuten");
      ("hoursAgo", JStr "vor {hours} Stunden");
      ("daysAgo", JStr "vor {days} Tagen");
      ("weeksAgo", JStr "vor {weeks} Wochen");
      ("monthsAgo", JStr "vor {months} Monaten");
      ("yearsAgo", JStr "vor {years} Jahren")])]);
  ("fileSize", JObj [
    ("bytes", JStr "Bytes");
    ("kb", JStr "KB");
    ("mb", JStr "MB");
    ("gb", JStr "GB");
    ("tb", JStr "TB")]);
  ("validation", JObj [
    ("required", JStr "Dieses Feld ist erforderlich");
    ("invalidType", JStr "Ungültiger Datentyp");
    ("tooSmall", JStr "Wert ist zu klein");
    ("tooBig", JStr "Wert ist zu groß");
    ("invalidString", JStr "Ungültige Zeichenkette");
    ("invalidNumber", JStr "Ungültige Zahl");
    ("invalidEmail", JStr "Ungültige E-Mail-Adresse");
    ("invalidUrl", JStr "Ungültige URL");
    ("invalidDate", JStr "Ungültiges Datum");
    ("custom", JObj [
      ("pstFileRequired", JStr "PST-Datei ist erforderlich");
      ("pstFileInvalid", JStr "Datei muss eine PST-Datei sein");
      ("emailCountRange", JStr "Anzahl muss zwischen 1 und 25 liegen");
      ("baseFileNameRequired", JStr "Basis-Dateiname ist erforderlich");
      ("baseFileNameInvalid", JStr "Dateiname darf nur Buchstaben, Zahlen, Unterstriche und Bindestriche enthalten");
      ("outputDirectoryRequired", JStr "Ausgabeverzeichnis ist erforderlich");
      ("outputDirectoryInvalid", JStr "Ausgabeverzeichnis darf nicht leer sein")])])]
.

(** [String.prototype.split(".")]. *)
Fixpoint split_dot_aux (s : string) (cur : string) : list string :=
  match s with
  | EmptyString => [cur]
  | String a rest =>
      if Ascii.eqb a "."%char then cur :: split_dot_aux rest EmptyString
      else split_dot_aux rest (cur ++ String a EmptyString)
  end.

Definition split_dot (s : string) : list string := split_dot_aux s EmptyString.

Fixpoint find_own (fields : list (string * JsVal)) (k : string) : option JsVal :=
  match fields with
  | [] => None
  | (k', v) :: rest => if String.eqb k k' then Some v else find_own rest k
  end.

(** One iteration of the loop: [current && typeof current === "object"
    && k in current], then [current = current[k]]. *)
Definition get_step (current : JsVal) (k : string) : option JsVal :=
  match current with
  | JObj fields =>
      match find_own fields k with
      | Some v => Some v
      | None => if Zod.inherited k then Some JInherited else None
      end
  | _ => None
  end.

Fixpoint walk (current : JsVal) (keys : list string) : option JsVal :=
  match keys with
  | [] => Some current
  | k :: rest =>
      match get_step current k with
      | Some v => walk v rest
      | None => None
      end
  end.

(** [fallback || key]. *)
Definition or_key (fallback : option string) (key : string) : string :=
  match fallback with
  | Some f => if truthy f then f else key
  | None => key
  end.

Definition getGermanText (key : string) (fallback : option string) : string :=
  match walk germanText (split_dot key) with
  | Some (JStr s) => s
  | _ => or_key fallback key
  end.

(** The string leaves of a value, with their key paths. *)
Fixpoint leaves (v : JsVal) : list (list string * string) :=
  match v with
  | JStr s => [([], s)]
  | JObj fields =>
      (fix go (fs : list (string * JsVal)) :=
         match fs with
         | [] => []
         | (k, w) :: rest =>
             (map (fun ps => (k :: fst ps, snd ps)) (leaves w) ++ go rest)%list
         end) fields
  | JInherited => []
  end.

Definition has_dot (s : string) : bool :=
  existsb (Ascii.eqb "."%char) (list_ascii_of_string s).

(** Object literals whose keys are distinct and contain no dot. *)
Fixpoint well_keyed (v : JsVal) : bool :=
  match v with
  | JObj fields =>
      let keys := map fst fields in
      (fix distinct (ks : list string) :=
         match ks with
         | [] => true
         | k :: rest => negb (existsb (String.eqb k) rest) && distinct rest
         end) keys
      && forallb (fun k => negb (has_dot k)) keys
      && (fix go (fs : list (string * JsVal)) :=
            match fs with
            | [] => true
            | (_, w) :: rest => well_keyed w && go rest
            end) fields
  | _ => true
  end.

(** [\w]: [A-Za-z0-9_]. *)
Definition is_word (c : ascii) : bool :=
  let n := nat_of_ascii c in
  (Nat.leb 65 n && Nat.leb n 90) || (Nat.leb 97 n && Nat.leb n 122)
  || (Nat.leb 48 n && Nat.leb n 57) || Nat.eqb n 95.

(** [String(...)] of the properties of [Object.prototype] as V8 renders
    them. *)
Definition inherited_string (k : string) : string :=
  if String.eqb k "__proto__" then "[object Object]"
  else if String.eqb k "constructor" then "function Object() { [native code] }"
  else "function " ++ k ++ "() { [native code] }".

(** [values[key] !== undefined ? String(values[key]) : undefined]: an own
    value is given by its [String()] rendering, [None] for [undefined]. *)
Definition value_of (values : list (string * option string)) (k : string) : option string :=
  match find (fun kv => String.eqb k (fst kv)) values with
  | Some (_, v) => v
  | None => if Zod.inherited k then Some (inherited_string k) else None
  end.

Definition replacement (values : list (string * option string)) (key : string) : string :=
  match value_of values key with
  | Some v => v
  | None => "{" ++ key ++ "}"
  end.

(** [template.replace(/\{(\w+)\}/g, ...)] as a left-to-right scan.  The
    state [Some w] means a match attempt began at a [{] followed so far
    by the word characters [w].  A greedy [\w+] cannot give back a word
    character to a closing [}], so an attempt succeeds exactly at the
    first non-word character when it is [}] and [w] is not empty;
    otherwise the [{] and [w] are kept and the scan resumes at that
    character (no match can start inside [w]). *)
Fixpoint scan (values : list (string * option string)) (st : option string) (s : string)
  : string :=
  match s with
  | EmptyString =>
      match st with None => EmptyString | Some w => "{" ++ w end
  | String c rest =>
      match st with
      | None =>
          if Ascii.eqb c "{"%char then scan values (Some EmptyString) rest
          else String c (scan values None rest)
      | Some w =>
          if is_word c then scan values (Some (w ++ String c EmptyString)) rest
          else if Ascii.eqb c "}"%char && truthy w then
            replacement values w ++ scan values None rest
          else
            "{" ++ w ++
            (if Ascii.eqb c "{"%char then scan values (Some EmptyString) rest
             else String c (scan values None rest))
      end
  end.

Definition interpolate (template : string) (values : list (string * option string)) : string :=
  scan values None template.

End Localization.

(* ------------------------------------------------------------------ *)
(** ** [handleFormChange] of [ConfigurationForm]
    (components/ConfigurationForm.tsx, stored after FileSelector.tsx):
    the watched form values are passed on to [onConfigChange] only when
    they parse. *)

Module ConfigForm.

Definition handleFormChange (data : Schema.Draft) : list App.Event :=
  match Schema.validateConfig data with
  | inr config => [App.ConfigChange config]
  | inl _ => []
  end.

End ConfigForm.

(* ------------------------------------------------------------------ *)
(** ** Classifications of recovery actions used in the statements below *)

Module RecoveryFacts.
Import Recovery.

Definition is_reset (a : ErrorRecoveryAction) : bool :=
  match action a with Reset => true | _ => false end.

Definition is_primary (a : ErrorRecoveryAction) : bool :=
  match primary a with Some true => true | _ => false end.

(** The icon that belongs to each kind of callback. *)
Definition icon_of (c : Callback) : ErrorDisplayView.Icon :=
  match c with
  | Retry => ErrorDisplayView.RefreshCw
  | Reset => ErrorDisplayView.RotateCcw
  | SelectNewFile => ErrorDisplayView.FileText
  | SelectNewDirectory => ErrorDisplayView.FolderOpen
  end.

End RecoveryFacts.

(** Validation issues of a draft with an empty base name and a refined
    root-level check. *)
Definition zod_sample_issues : list Zod.ZodIssue :=
  [Zod.mkZodIssue "too_small" "String must contain at least 1 character(s)"
     ["baseFileName"] "1" "";
   Zod.mkZodIssue "invalid_format" "Invalid string" ["baseFileName"] "" "";
   Zod.mkZodIssue "custom" "Ausgabeverzeichnis fehlt" [] "" ""].

(* ================================================================== *)
(** * Sanity checks on concrete inputs *)

Example map_permission_scenario :
  let e := mapBackendErrorToGerman 0%Z "Permission denied while writing file" in
  code e = "PERMISSION_DENIED" /\ le_severity e = Error /\ recoverable e = true
  /\ List.length (recoverySuggestions e) = 2.
Proof. vm_compute. repeat split. Qed.

Example map_mixed_case :
  code (mapBackendErrorToGerman 0%Z "PST File NOT Found: x.pst") = "PST_FILE_NOT_FOUND".
Proof. vm_compute. reflexivity. Qed.

(** The Kelvin sign U+212A lower-cases to "k". *)
Example map_kelvin_sign :
  code (mapBackendErrorToGerman 0%Z "BacKend lost") = "IPC_CONNECTION_FAILED".
Proof. vm_compute. reflexivity. Qed.

(** A capital sigma at the end of a word lower-cases to the final sigma. *)
Example lower_final_sigma : toLowerCase "ΟΔΟΣ ΣΑ" = "οδος σα".
Proof. vm_compute. reflexivity. Qed.

Example trim_example : Schema.trim "  /out	 " = "/out".
Proof. reflexivity. Qed.

Example schema_scenario_30 :
  exists issues,
    Schema.validateConfig
      (Schema.mkDraft (Schema.JsString "archive.pst") (Schema.JsNumber 30)
         (Schema.JsString "emails_archiv") (Schema.JsString "/out")) = inl issues
    /\ issues = [("emailsPerPdf", "Maximal 25 E-Mails pro PDF erlaubt")].
Proof. eexists. split; reflexivity. Qed.

Example schema_scenario_ok :
  Schema.validateConfig
    (Schema.mkDraft (Schema.JsString "archive.pst") (Schema.JsNumber 10)
       (Schema.JsString "emails_archiv") (Schema.JsString "/out"))
  = inr (mkProcessingConfig "archive.pst" 10 "emails_archiv" "/out").
Proof. reflexivity. Qed.

Example file_selector_scenario :
  FileSelector.handleFileSelect 0 None (FileSelector.mkFile "Archive.PST" 5000)
  = FileSelector.mkOut None [] ["Archive.PST"].
Proof. reflexivity. Qed.

Example wizard_scenario :
  App.isProcessing scenario_running = true
  /\ App.currentStep scenario_running = App.progress_step
  /\ status (App.progress scenario_running) = progress_messages.starting
  /\ App.isProcessing
       (App.dispatch scenario_running
          (App.DeliverProgress (mkProcessingProgress 5 5 1 "" true None))) = false.
Proof. vm_compute. repeat split. Qed.

(* ================================================================== *)
(** * The error classifier *)

(** Case split on every substring test of the classifier. *)
Ltac split_includes :=
  repeat match goal with
         | |- context [includes ?h ?n] => destruct (includes h n); cbn [orb]
         end.

(** C6: [mapBackendErrorToGerman] returns the classification of the first
    fingerprint group, in the declared order, that matches the lower-cased
    message (no match: unknown).  In particular a message containing
    "file not found" in any letter case is classified PST_FILE_NOT_FOUND. *)
Theorem classify_first_match :
  (forall now rawMessage,
      classification (mapBackendErrorToGerman now rawMessage)
      = classifyBackendError_spec rawMessage)
  /\ (forall now rawMessage,
      includes (toLowerCase rawMessage) "file not found" = true ->
      code (mapBackendErrorToGerman now rawMessage) = "PST_FILE_NOT_FOUND").
Proof.
  split.
  - intros now m. unfold mapBackendErrorToGerman, classifyBackendError_spec,
      classification. cbn [find fingerprint_table existsb].
    split_includes; reflexivity.
  - intros now m H. unfold mapBackendErrorToGerman. rewrite H, orb_true_r.
    reflexivity.
Qed.

Lemma classify_first_match_witness :
  includes (toLowerCase "Backend: FILE NOT FOUND") "file not found" = true
  /\ code (mapBackendErrorToGerman 0%Z "Backend: FILE NOT FOUND") = "PST_FILE_NOT_FOUND".
Proof.
  split; [vm_compute; reflexivity |].
  apply (proj2 classify_first_match). vm_compute. reflexivity.
Defined.

(** C7: two calls on the same message, at any two instants, return
    errors that agree on every field but the timestamp (code, message,
    German message, severity, recoverability, recovery suggestions and
    context); the timestamp of each is the instant of its call. *)
Theorem classify_deterministic :
  forall now1 now2 rawMessage,
    let e1 := mapBackendErrorToGerman now1 rawMessage in
    let e2 := mapBackendErrorToGerman now2 rawMessage in
    code e1 = code e2
    /\ message e1 = message e2
    /\ germanMessage e1 = germanMessage e2
    /\ le_severity e1 = le_severity e2
    /\ recoverable e1 = recoverable e2
    /\ recoverySuggestions e1 = recoverySuggestions e2
    /\ context e1 = context e2
    /\ timestamp e1 = now1 /\ timestamp e2 = now2.
Proof.
  intros now1 now2 m. cbv zeta. unfold mapBackendErrorToGerman.
  split_includes; repeat split.
Qed.

(** C10: every classification carries at least one recovery suggestion. *)
Theorem classify_suggestions_nonempty :
  forall now rawMessage,
    recoverySuggestions (mapBackendErrorToGerman now rawMessage) <> [].
Proof.
  intros now m. unfold mapBackendErrorToGerman.
  split_includes; discriminate.
Qed.

(* ================================================================== *)
(** * The wizard controller *)

Module AppFacts.
Import App.

Lemma opt_string_eqb_refl (o : option string) : opt_string_eqb o o = true.
Proof. destruct o; cbn; [apply String.eqb_refl | reflexivity]. Qed.

(** A render that changed nothing runs no effect. *)
Lemma commit_same (s : State) : commit s s = s.
Proof.
  unfold commit, effect_reset, effect_completion.
  rewrite String.eqb_refl, Bool.eqb_reflx, opt_string_eqb_refl.
  destruct s; reflexivity.
Qed.

(** The effects write neither [selectedFile] nor [progress]. *)
Lemma commit_selectedFile (p n : State) :
  selectedFile (commit p n) = selectedFile n.
Proof.
  unfold commit, effect_reset, effect_completion.
  repeat match goal with |- context [if ?b then _ else _] => destruct b; cbn end;
    reflexivity.
Qed.

Lemma commit_progress (p n : State) : progress (commit p n) = progress n.
Proof.
  unfold commit, effect_reset, effect_completion.
  repeat match goal with |- context [if ?b then _ else _] => destruct b; cbn end;
    reflexivity.
Qed.

(** The running flag after a commit. *)
Lemma commit_isProcessing (p n : State) :
  isProcessing (commit p n)
  = if negb (Bool.eqb (isComplete (progress p)) (isComplete (progress n))
             && opt_string_eqb (error (progress p)) (error (progress n)))
       && finished (progress n)
    then false else isProcessing n.
Proof.
  unfold commit, effect_reset, effect_completion, finished.
  repeat match goal with |- context [if ?b then _ else _] => destruct b; cbn end;
    reflexivity.
Qed.

Lemma opt_string_eqb_eq (a b : option string) :
  opt_string_eqb a b = true -> a = b.
Proof.
  destruct a, b; cbn; try discriminate; [|reflexivity].
  intros H. apply String.eqb_eq in H. subst. reflexivity.
Qed.

Lemma dispatch_finished_stops (s : State) (e : Event) :
  running_unfinished s ->
  finished (progress (dispatch s e)) = true ->
  isProcessing (dispatch s e) = false.
Proof.
  unfold dispatch. intros Hinv Hfin.
  rewrite commit_progress in Hfin.
  rewrite commit_isProcessing, Hfin, andb_true_r.
  destruct (Bool.eqb _ _ && opt_string_eqb _ _) eqn:Hsame; cbn; [|reflexivity].
  apply andb_true_iff in Hsame as [Hc He].
  apply Bool.eqb_prop in Hc. apply opt_string_eqb_eq in He.
  assert (Hprev : finished (progress s) = true)
    by (unfold finished in *; rewrite Hc, He; exact Hfin).
  destruct e; cbn [handle] in *;
    unfold handleRetry in *;
    unfold handleFileSelect, handleConfigChange, handleStartProcessing,
      handleCancelProcessing, handleReset in *;
    repeat match goal with
           | H : context [match ?c with Some _ => _ | None => _ end] |- _ =>
               destruct c
           | |- context [match ?c with Some _ => _ | None => _ end] =>
               destruct c
           | |- context [if ?b then _ else _] => destruct b
           end;
    cbn in *; try discriminate; try reflexivity;
    (destruct (isProcessing s) eqn:Hr;
     [rewrite (Hinv Hr) in Hprev; discriminate | reflexivity]).
Qed.

Lemma reachable_running_unfinished (s : State) :
  reachable s -> running_unfinished s.
Proof.
  induction 1 as [|s e _ IH].
  - discriminate.
  - intros Hrun. destruct (finished (progress (dispatch s e))) eqn:Hfin;
      [|reflexivity].
    rewrite (dispatch_finished_stops s e IH Hfin) in Hrun. discriminate.
Qed.

(** Committing the file the handler saw: the effects never touch
    [selectedFile]. *)
Lemma dispatch_selectedFile_reset (s : State) (e : Event) :
  selectedFile s <> "" -> selectedFile (dispatch s e) = "" ->
  currentStep (dispatch s e) = file /\ config (dispatch s e) = None.
Proof.
  unfold dispatch. rewrite commit_selectedFile. intros Hs Hn.
  assert (Hd : String.eqb (selectedFile s) (selectedFile (handle e s)) = false)
    by (apply String.eqb_neq; congruence).
  unfold commit, effect_completion, effect_reset.
  rewrite Hd, Hn. cbn.
  repeat match goal with |- context [if ?b then _ else _] => destruct b; cbn end;
    split; reflexivity.
Qed.

Lemma commit_config (p n : State) :
  config (commit p n) = config n \/ config (commit p n) = None.
Proof.
  unfold commit, effect_reset, effect_completion.
  repeat match goal with |- context [if ?b then _ else _] => destruct b; cbn end;
    auto.
Qed.

(** Every handler stores a configuration naming the file it leaves
    selected. *)
Lemma handle_config_file (e : Event) (s : State) :
  (forall c, config s = Some c -> pstFilePath c = selectedFile s) ->
  forall c, config (handle e s) = Some c -> pstFilePath c = selectedFile (handle e s).
Proof.
  intros IH c.
  destruct e; cbn [handle];
    unfold handleRetry;
    unfold handleFileSelect, handleConfigChange, handleStartProcessing,
      handleCancelProcessing, handleReset;
    repeat match goal with
           | |- context [match ?x with Some _ => _ | None => _ end] =>
               destruct x eqn:?
           | |- context [if ?b then _ else _] => destruct b
           end;
    cbn; intros H; try discriminate;
    solve [injection H as <-; reflexivity | apply IH; congruence].
Qed.

End AppFacts.

(** C1: whatever event (handler call or progress delivery) the wizard
    processes, if the resulting progress is complete or carries a
    non-empty error, the wizard is not running afterwards. *)
Theorem completion_stops_running :
  forall (s : App.State) (e : App.Event),
    App.reachable s ->
    (isComplete (App.progress (App.dispatch s e))
     || truthy_opt (error (App.progress (App.dispatch s e)))) = true ->
    App.isProcessing (App.dispatch s e) = false.
Proof.
  intros s e Hr Hfin.
  apply (AppFacts.dispatch_finished_stops s e);
    [apply AppFacts.reachable_running_unfinished; exact Hr | exact Hfin].
Qed.

Lemma scenario_running_reachable : App.reachable scenario_running.
Proof. unfold scenario_running. repeat constructor. Qed.

Lemma completion_stops_running_witness :
  App.isProcessing scenario_running = true
  /\ App.isProcessing
       (App.dispatch scenario_running
          (App.DeliverProgress (mkProcessingProgress 5 5 1 "" true None))) = false.
Proof.
  split; [vm_compute; reflexivity |].
  apply completion_stops_running;
    [exact scenario_running_reachable | vm_compute; reflexivity].
Defined.

(** C2: from any state, when an event leaves the selected file empty
    while it was not, the wizard is back at file selection and the
    configuration is discarded. *)
Theorem clear_file_resets_wizard :
  forall (s : App.State) (e : App.Event),
    App.selectedFile s <> "" ->
    App.selectedFile (App.dispatch s e) = "" ->
    App.currentStep (App.dispatch s e) = App.file
    /\ App.config (App.dispatch s e) = None.
Proof.
  intros s e. apply AppFacts.dispatch_selectedFile_reset.
Qed.

Lemma clear_file_resets_wizard_witness :
  App.currentStep (App.dispatch scenario_running (App.FileSelect "")) = App.file
  /\ App.config (App.dispatch scenario_running (App.FileSelect "")) = None.
Proof.
  apply clear_file_resets_wizard;
    [vm_compute; discriminate | vm_compute; reflexivity].
Defined.

(** C3: opening or dismissing the cancel prompt invokes no callback and
    leaves the wizard state as it is; the confirm action invokes
    [onCancel] exactly once, and on a running wizard this stops the run,
    returns to the process-control step and sets status and error to the
    cancelled message, nothing else changing. *)
Theorem cancel_requires_confirmation :
  (forall (s : App.State) show b,
      ProcessControl.handle (App.canStartProcessing s) (App.isProcessing s) show
        (ProcessControl.OpenChange b) = (b, [])
      /\ fst (ProcessControl.step s show (ProcessControl.OpenChange b)) = s)
  /\ (forall (s : App.State) show,
      ProcessControl.handle (App.canStartProcessing s) (App.isProcessing s) show
        ProcessControl.CancelDialog = (false, [])
      /\ fst (ProcessControl.step s show ProcessControl.CancelDialog) = s)
  /\ (forall (s : App.State) show,
      App.reachable s -> App.isProcessing s = true ->
      ProcessControl.handle (App.canStartProcessing s) (App.isProcessing s) show
        ProcessControl.CancelConfirm = (false, [App.CancelProcessing])
      /\ fst (ProcessControl.step s show ProcessControl.CancelConfirm)
         = App.mkState (App.selectedFile s) (App.config s) false
             (mkProcessingProgress (totalEmails (App.progress s))
                (processedEmails (App.progress s)) (currentPdf (App.progress s))
                progress_messages.cancelled (isComplete (App.progress s))
                (Some progress_messages.cancelled))
             App.process (App.globalError s)).
Proof.
  split; [|split].
  - intros s show b. split; [reflexivity|]. apply AppFacts.commit_same.
  - intros s show. split; [reflexivity|]. apply AppFacts.commit_same.
  - intros s show Hr Hrun. split; [reflexivity|].
    pose proof (AppFacts.reachable_running_unfinished s Hr Hrun) as Hfin.
    unfold App.finished in Hfin. apply orb_false_iff in Hfin as [Hc _].
    cbn [ProcessControl.step ProcessControl.handle fold_left fst].
    unfold App.commit, App.effect_reset, App.effect_completion.
    cbn [App.handle App.handleCancelProcessing App.setProgress App.setCurrentStep
         App.setIsProcessing App.selectedFile App.progress].
    rewrite String.eqb_refl, Hc. cbn.
    destruct s as [sf cfg run [t pr cp st ic er] stp ge]; cbn in *.
    repeat match goal with |- context [if ?b then _ else _] => destruct b; cbn end;
      reflexivity.
Qed.

Lemma cancel_requires_confirmation_witness :
  fst (ProcessControl.step scenario_running false ProcessControl.CancelConfirm)
  = App.mkState "archive.pst"
      (Some (mkProcessingConfig "archive.pst" 10 "emails_archiv" "/out")) false
      (mkProcessingProgress 0 0 0 progress_messages.cancelled false
         (Some progress_messages.cancelled))
      App.process None.
Proof.
  refine (proj2 ((proj2 (proj2 cancel_requires_confirmation))
                   scenario_running false scenario_running_reachable _)).
  vm_compute. reflexivity.
Defined.

(** C4: [handleStartProcessing] without a configuration changes nothing;
    with one it sets the run flag, moves to the progress step, clears the
    global error, sets the starting status and removes the progress error,
    keeping the three counters (and resetting [isComplete]). *)
Theorem start_processing_effect :
  (forall s : App.State,
      App.config s = None -> App.dispatch s App.StartProcessing = s)
  /\ (forall (s : App.State) (c : ProcessingConfig),
      App.config s = Some c ->
      App.dispatch s App.StartProcessing
      = App.mkState (App.selectedFile s) (App.config s) true
          (mkProcessingProgress (totalEmails (App.progress s))
             (processedEmails (App.progress s)) (currentPdf (App.progress s))
             progress_messages.starting false None)
          App.progress_step None).
Proof.
  split.
  - intros s Hc. unfold App.dispatch. cbn [App.handle].
    unfold App.handleStartProcessing. rewrite Hc. apply AppFacts.commit_same.
  - intros s c Hc. unfold App.dispatch. cbn [App.handle].
    unfold App.handleStartProcessing. rewrite Hc.
    unfold App.commit, App.effect_reset, App.effect_completion.
    cbn [App.setProgress App.setCurrentStep App.setIsProcessing App.setGlobalError
         App.selectedFile App.progress App.config].
    rewrite String.eqb_refl.
    destruct s as [sf cfg run [t pr cp st ic er] stp ge]; cbn in *; subst.
    repeat match goal with |- context [if ?b then _ else _] => destruct b; cbn end;
      reflexivity.
Qed.

Lemma start_processing_effect_witness :
  App.dispatch App.initial App.StartProcessing = App.initial
  /\ App.dispatch
       (App.dispatch (App.dispatch App.initial (App.FileSelect "archive.pst"))
          (App.ConfigChange scenario_config)) App.StartProcessing
     = App.mkState "archive.pst"
         (Some (mkProcessingConfig "archive.pst" 10 "emails_archiv" "/out")) true
         (mkProcessingProgress 0 0 0 progress_messages.starting false None)
         App.progress_step None.
Proof.
  split.
  - apply (proj1 start_processing_effect). reflexivity.
  - refine (eq_trans ((proj2 start_processing_effect) _
                        (mkProcessingConfig "archive.pst" 10 "emails_archiv" "/out") _) _);
      vm_compute; reflexivity.
Defined.

(** C9: the configuration [handleConfigChange] stores carries the
    selected file in place of the path reported by the form; hence in
    every reachable state a stored configuration names the selected
    file. *)
Theorem config_change_uses_selected_file :
  (forall (s : App.State) (newConfig : ProcessingConfig),
      App.config (App.dispatch s (App.ConfigChange newConfig))
      = Some (mkProcessingConfig (App.selectedFile s) (emailsPerPdf newConfig)
                (baseFileName newConfig) (outputDirectory newConfig))
      /\ App.selectedFile (App.dispatch s (App.ConfigChange newConfig))
         = App.selectedFile s)
  /\ (forall (s : App.State) (c : ProcessingConfig),
      App.reachable s -> App.config s = Some c -> pstFilePath c = App.selectedFile s).
Proof.
  assert (Hchange : forall (s : App.State) (newConfig : ProcessingConfig),
      App.config (App.dispatch s (App.ConfigChange newConfig))
      = Some (mkProcessingConfig (App.selectedFile s) (emailsPerPdf newConfig)
                (baseFileName newConfig) (outputDirectory newConfig))
      /\ App.selectedFile (App.dispatch s (App.ConfigChange newConfig))
         = App.selectedFile s).
  { intros s c. unfold App.dispatch. rewrite AppFacts.commit_selectedFile.
    unfold App.commit, App.effect_reset, App.effect_completion.
    cbn [App.handle]. unfold App.handleConfigChange.
    destruct s as [sf cfg run pr stp ge]; cbn.
    repeat match goal with |- context [if ?b then _ else _] => destruct b eqn:?; cbn end;
      try rewrite String.eqb_refl in *; try discriminate; split; reflexivity. }
  split; [exact Hchange|].
  intros s c Hr. revert c. induction Hr as [|s e _ IH]; intros c Hc.
  - discriminate.
  - unfold App.dispatch in *. rewrite AppFacts.commit_selectedFile.
    destruct (AppFacts.commit_config s (App.handle e s)) as [Heq|Heq];
      rewrite Heq in Hc; [|discriminate].
    exact (AppFacts.handle_config_file e s IH c Hc).
Qed.

Lemma config_change_uses_selected_file_witness :
  App.config
    (App.dispatch (App.dispatch App.initial (App.FileSelect "archive.pst"))
       (App.ConfigChange (mkProcessingConfig "elsewhere.pst" 10 "emails_archiv" "/out")))
  = Some (mkProcessingConfig "archive.pst" 10 "emails_archiv" "/out")
  /\ "archive.pst" = App.selectedFile scenario_running.
Proof.
  split.
  - exact (proj1 ((proj1 config_change_uses_selected_file) _ _)).
  - exact ((proj2 config_change_uses_selected_file) scenario_running
             (mkProcessingConfig "archive.pst" 10 "emails_archiv" "/out")
             scenario_running_reachable ltac:(vm_compute; reflexivity)).
Defined.

(* ================================================================== *)
(** * PST candidate selection *)

Module FileSelectorFacts.
Import FileSelector.

(** The outcome of [handleFileSelect] by the three checks. *)
Lemma handleFileSelect_cases (now : Z) (prev : option LocalizedError) (file : File) :
  handleFileSelect now prev file
  = match validatePstFile now file with
    | Some e => mkOut (Some e) [e] []
    | None => mkOut None [] [name file]
    end.
Proof. reflexivity. Qed.

End FileSelectorFacts.

(** C8 (as the code decides it): a candidate is committed upward, with
    the local error cleared, exactly when its lower-cased name ends in
    ".pst", its size is non-zero and at least 1024 bytes; any other
    candidate sets the local error, logs it and commits nothing.  A
    ".pst" candidate of size strictly between 0 and 1024 is rejected with
    warning severity; an empty one, or a wrong extension, with error
    severity. *)
Theorem select_candidate_rules :
  forall (now : Z) (prev : option LocalizedError) (file : FileSelector.File),
    let out := FileSelector.handleFileSelect now prev file in
    ((FileSelector.committed out = [FileSelector.name file]
      /\ FileSelector.local_error out = None)
     <-> (FileSelector.pst_name file = true
          /\ FileSelector.size file <> 0%Z /\ (1024 <= FileSelector.size file)%Z))
    /\ ((FileSelector.committed out = [] /\ exists e,
           FileSelector.local_error out = Some e /\ FileSelector.logged out = [e])
        \/ (FileSelector.committed out = [FileSelector.name file]
            /\ FileSelector.local_error out = None
            /\ FileSelector.logged out = []))
    /\ (FileSelector.pst_name file = true ->
        (0 < FileSelector.size file < 1024)%Z ->
        exists e, FileSelector.local_error out = Some e /\ le_severity e = Warning)
    /\ (FileSelector.pst_name file = false \/ FileSelector.size file = 0%Z ->
        exists e, FileSelector.local_error out = Some e /\ le_severity e = Error).
Proof.
  intros now prev file out. subst out.
  rewrite FileSelectorFacts.handleFileSelect_cases.
  unfold FileSelector.validatePstFile, FileSelector.pst_name.
  destruct (endsWith _ _) eqn:Hext; cbn [negb].
  - destruct (Z.eqb_spec (FileSelector.size file) 0) as [H0|H0].
    + cbn. split; [|split; [|split]].
      * split; [intros [H _]; discriminate | intros [_ [H _]]; contradiction].
      * left. split; [reflexivity | eexists; split; reflexivity].
      * intros _ H. lia.
      * intros _. eexists; split; reflexivity.
    + destruct (Z.ltb_spec (FileSelector.size file) 1024) as [Hlt|Hge]; cbn;
        split; [| split; [|split] | | split; [|split]].
      * split; [intros [H _]; discriminate | intros [_ [_ H]]; lia].
      * left. split; [reflexivity | eexists; split; reflexivity].
      * intros _ _. eexists; split; reflexivity.
      * intros [H|H]; [discriminate | contradiction].
      * split; [intros _; split; [reflexivity | split; assumption]
               | intros _; split; reflexivity].
      * right. split; [reflexivity | split; reflexivity].
      * intros _ H. lia.
      * intros [H|H]; [discriminate | contradiction].
  - cbn. split; [|split; [|split]].
    + split; [intros [H _]; discriminate | intros [H _]; discriminate].
    + left. split; [reflexivity | eexists; split; reflexivity].
    + intros H. discriminate.
    + intros _. eexists; split; reflexivity.
Qed.

Lemma select_candidate_rules_witness :
  exists e,
    FileSelector.local_error
      (FileSelector.handleFileSelect 0 None (FileSelector.mkFile "Mail.PST" 500))
    = Some e /\ le_severity e = Warning.
Proof.
  refine (proj1 (proj2 (proj2 (select_candidate_rules 0 None
                                 (FileSelector.mkFile "Mail.PST" 500)))) _ _);
    [vm_compute; reflexivity | cbn; lia].
Defined.

(** C8, counterexample: an empty ".pst" file is below the 1024-byte
    threshold, yet its rejection has error severity, not warning. *)
Lemma select_candidate_empty_not_warning :
  (FileSelector.size (FileSelector.mkFile "archive.pst" 0) < 1024)%Z
  /\ exists e,
       FileSelector.local_error
         (FileSelector.handleFileSelect 0 None (FileSelector.mkFile "archive.pst" 0))
       = Some e /\ le_severity e <> Warning.
Proof.
  split; [reflexivity|]. eexists; split; [reflexivity | discriminate].
Qed.

(* ================================================================== *)
(** * The configuration schema *)

Module SchemaFacts.
Import Schema.

Lemma emailsPerPdf_field_inr (v : JsValue) (x : Q) :
  emailsPerPdf_field v = inr x <->
  (v = JsUndefined /\ x = 10%Q) \/ (v = JsNumber x /\ (1 <= x)%Q /\ (x <= 25)%Q).
Proof.
  destruct v as [| n | | sgn | s |]; cbn.
  - split; [intros H; injection H as <-; left; split; reflexivity|].
    intros [[_ H]|[H _]]; [subst; reflexivity | discriminate].
  - destruct (Qle_bool 1 n) eqn:H1, (Qle_bool n 25) eqn:H2; cbn.
    + apply Qle_bool_iff in H1, H2.
      split; [intros H; injection H as <-; right; auto|].
      intros [[H _]|[H _]]; [discriminate | injection H as ->; reflexivity].
    + split; [discriminate|]. intros [[H _]|[H [_ H']]]; [discriminate|].
      injection H as <-. apply Qle_bool_iff in H'. congruence.
    + split; [discriminate|]. intros [[H _]|[H [H' _]]]; [discriminate|].
      injection H as <-. apply Qle_bool_iff in H'. congruence.
    + split; [discriminate|]. intros [[H _]|[H [H' _]]]; [discriminate|].
      injection H as <-. apply Qle_bool_iff in H'. congruence.
  - split; [discriminate|]. intros [[H _]|[H _]]; discriminate.
  - split; [discriminate|]. intros [[H _]|[H _]]; discriminate.
  - split; [discriminate|]. intros [[H _]|[H _]]; discriminate.
  - split; [discriminate|]. intros [[H _]|[H _]]; discriminate.
Qed.

Lemma validateConfig_inr (d : Draft) (cfg : ProcessingConfig) :
  validateConfig d = inr cfg <->
  pstFilePath_field (d_pstFilePath d) = inr (pstFilePath cfg)
  /\ emailsPerPdf_field (d_emailsPerPdf d) = inr (emailsPerPdf cfg)
  /\ baseFileName_field (d_baseFileName d) = inr (baseFileName cfg)
  /\ outputDirectory_field (d_outputDirectory d) = inr (outputDirectory cfg).
Proof.
  unfold validateConfig.
  destruct (pstFilePath_field _), (emailsPerPdf_field _),
    (baseFileName_field _), (outputDirectory_field _);
    split; try discriminate; try (intros [H1 [H2 [H3 H4]]]; discriminate).
  - intros H. injection H as <-. repeat split.
  - intros [H1 [H2 [H3 H4]]]. injection H1 as ->. injection H2 as ->.
    injection H3 as ->. injection H4 as ->. destruct cfg; reflexivity.
Qed.

(** A rejected number field puts its issues, under its path, into the
    result of [validateConfig]. *)
Lemma validateConfig_emails_issues (d : Draft) (ms : list string) :
  emailsPerPdf_field (d_emailsPerPdf d) = inl ms ->
  exists issues, validateConfig d = inl issues
    /\ forall m, In m ms -> In ("emailsPerPdf", m) issues.
Proof.
  intros H. unfold validateConfig. rewrite H.
  exists (issues_of "pstFilePath" (pstFilePath_field (d_pstFilePath d))
          ++ issues_of "emailsPerPdf" (inl ms : result Q)
          ++ issues_of "baseFileName" (baseFileName_field (d_baseFileName d))
          ++ issues_of "outputDirectory" (outputDirectory_field (d_outputDirectory d)))%list.
  split.
  - destruct (pstFilePath_field _); reflexivity.
  - intros m Hm. apply in_or_app. right. apply in_or_app. left.
    cbn. apply in_map_iff. exists m. split; [reflexivity | exact Hm].
Qed.

(** Every issue of [issues_of path r] is filed under [path]. *)
Lemma issues_of_path {A} (path p m : string) (r : result A) :
  In (p, m) (issues_of path r) -> p = path.
Proof.
  destruct r as [ms|]; cbn; [|contradiction].
  intros H. apply in_map_iff in H as [x [Hx _]]. injection Hx as <- _. reflexivity.
Qed.

(** A field with the type message alone puts exactly that message under
    "emailsPerPdf" into the result of [validateConfig]. *)
Lemma validateConfig_emails_only (d : Draft) (msg : string) :
  emailsPerPdf_field (d_emailsPerPdf d) = inl [msg] ->
  exists issues, validateConfig d = inl issues
    /\ In ("emailsPerPdf", msg) issues
    /\ forall m, In ("emailsPerPdf", m) issues -> m = msg.
Proof.
  intros H. unfold validateConfig. rewrite H.
  exists (issues_of "pstFilePath" (pstFilePath_field (d_pstFilePath d))
          ++ issues_of "emailsPerPdf" (inl [msg] : result Q)
          ++ issues_of "baseFileName" (baseFileName_field (d_baseFileName d))
          ++ issues_of "outputDirectory" (outputDirectory_field (d_outputDirectory d)))%list.
  split; [destruct (pstFilePath_field _); reflexivity|]. split.
  - apply in_or_app. right. apply in_or_app. left. left. reflexivity.
  - intros m Hm.
    apply in_app_or in Hm as [Hm|Hm]; [apply issues_of_path in Hm; discriminate|].
    apply in_app_or in Hm as [Hm|Hm].
    + destruct Hm as [Hm|[]]. injection Hm as ->. reflexivity.
    + apply in_app_or in Hm as [Hm|Hm]; apply issues_of_path in Hm; discriminate.
Qed.

End SchemaFacts.

(** C5 (as the code decides it): with the other three fields valid,
    [validateConfig] accepts a draft exactly when its messages-per-document
    value is absent or a number in [1, 25] (no integrality check: any
    number in range passes); an absent value becomes 10; a number below 1
    is rejected with a message under "emailsPerPdf" containing "1", one
    above 25 with a message containing "25" (both for finite numbers,
    the only ones the [Q] of [JsNumber] holds); NaN, [Infinity] and
    [-Infinity] are rejected with the type message of [z.number()] alone,
    which contains neither "1" nor "25". *)
Theorem emailsPerPdf_validation :
  (forall d : Schema.Draft,
      Schema.field_ok (Schema.pstFilePath_field (Schema.d_pstFilePath d)) = true ->
      Schema.field_ok (Schema.baseFileName_field (Schema.d_baseFileName d)) = true ->
      Schema.field_ok (Schema.outputDirectory_field (Schema.d_outputDirectory d)) = true ->
      ((exists cfg, Schema.validateConfig d = inr cfg) <->
       (Schema.d_emailsPerPdf d = Schema.JsUndefined
        \/ exists q, Schema.d_emailsPerPdf d = Schema.JsNumber q
                     /\ (1 <= q)%Q /\ (q <= 25)%Q)))
  /\ (forall (d : Schema.Draft) (cfg : ProcessingConfig),
      Schema.validateConfig d = inr cfg ->
      (Schema.d_emailsPerPdf d = Schema.JsUndefined /\ emailsPerPdf cfg = 10%Q)
      \/ (Schema.d_emailsPerPdf d = Schema.JsNumber (emailsPerPdf cfg)
          /\ (1 <= emailsPerPdf cfg)%Q /\ (emailsPerPdf cfg <= 25)%Q))
  /\ (forall (d : Schema.Draft) (q : Q),
      Schema.d_emailsPerPdf d = Schema.JsNumber q -> (q < 1)%Q ->
      exists issues m, Schema.validateConfig d = inl issues
        /\ In ("emailsPerPdf", m) issues /\ includes m "1" = true)
  /\ (forall (d : Schema.Draft) (q : Q),
      Schema.d_emailsPerPdf d = Schema.JsNumber q -> (25 < q)%Q ->
      exists issues m, Schema.validateConfig d = inl issues
        /\ In ("emailsPerPdf", m) issues /\ includes m "25" = true)
  /\ (forall d : Schema.Draft,
      (Schema.d_emailsPerPdf d = Schema.JsNaN
       \/ exists positive, Schema.d_emailsPerPdf d = Schema.JsInfinity positive) ->
      exists issues, Schema.validateConfig d = inl issues
        /\ In ("emailsPerPdf", "Anzahl muss eine Zahl sein") issues
        /\ forall m, In ("emailsPerPdf", m) issues ->
             m = "Anzahl muss eine Zahl sein"
             /\ includes m "1" = false /\ includes m "25" = false).
Proof.
  split; [|split; [|split; [|split]]].
  - intros d Hp Hb Ho. split.
    + intros [cfg Hcfg]. apply SchemaFacts.validateConfig_inr in Hcfg as [_ [He _]].
      apply SchemaFacts.emailsPerPdf_field_inr in He as [[H _]|[H R]];
        [left; exact H | right; eexists; split; [exact H | exact R]].
    + intros Hrange.
      destruct (Schema.pstFilePath_field _) as [|p] eqn:Ep; [discriminate|].
      destruct (Schema.baseFileName_field _) as [|b] eqn:Eb; [discriminate|].
      destruct (Schema.outputDirectory_field _) as [|o] eqn:Eo; [discriminate|].
      assert (He : exists x, Schema.emailsPerPdf_field (Schema.d_emailsPerPdf d) = inr x).
      { destruct Hrange as [H|[q [H R]]].
        - exists 10%Q. apply SchemaFacts.emailsPerPdf_field_inr. left; split; auto.
        - exists q. apply SchemaFacts.emailsPerPdf_field_inr. right; split; auto. }
      destruct He as [x Hx].
      exists (mkProcessingConfig p x b o).
      apply SchemaFacts.validateConfig_inr; cbn; auto.
  - intros d cfg Hcfg. apply SchemaFacts.validateConfig_inr in Hcfg as [_ [He _]].
    apply SchemaFacts.emailsPerPdf_field_inr in He as [H|H]; [left|right]; exact H.
  - intros d q Hd Hq.
    assert (H1 : Qle_bool 1 q = false).
    { destruct (Qle_bool 1 q) eqn:E; [|reflexivity].
      apply Qle_bool_iff in E. exfalso. apply (Qlt_not_le q 1); assumption. }
    destruct (SchemaFacts.validateConfig_emails_issues d
                ("Mindestens 1 E-Mail pro PDF erforderlich"
                 :: Schema.check (Qle_bool q 25) "Maximal 25 E-Mails pro PDF erlaubt"))
      as [issues [Hv Hin]].
    { rewrite Hd. cbn [Schema.emailsPerPdf_field]. rewrite H1.
      destruct (Qle_bool q 25); reflexivity. }
    exists issues, "Mindestens 1 E-Mail pro PDF erforderlich".
    split; [exact Hv | split; [apply Hin; left; reflexivity | reflexivity]].
  - intros d q Hd Hq.
    assert (H1 : Qle_bool 1 q = true).
    { apply Qle_bool_iff. apply Qlt_le_weak.
      apply Qlt_trans with 25%Q; [reflexivity | exact Hq]. }
    assert (H2 : Qle_bool q 25 = false).
    { destruct (Qle_bool q 25) eqn:E; [|reflexivity].
      apply Qle_bool_iff in E. exfalso. apply (Qlt_not_le 25 q); assumption. }
    destruct (SchemaFacts.validateConfig_emails_issues d
                ["Maximal 25 E-Mails pro PDF erlaubt"]) as [issues [Hv Hin]].
    { rewrite Hd. cbn [Schema.emailsPerPdf_field]. rewrite H1, H2. reflexivity. }
    exists issues, "Maximal 25 E-Mails pro PDF erlaubt".
    split; [exact Hv | split; [apply Hin; left; reflexivity | reflexivity]].
  - intros d Hd.
    destruct (SchemaFacts.validateConfig_emails_only d "Anzahl muss eine Zahl sein")
      as [issues [Hv [Hin Honly]]].
    { destruct Hd as [Hd|[sgn Hd]]; rewrite Hd; reflexivity. }
    exists issues. split; [exact Hv | split; [exact Hin|]].
    intros m Hm. apply Honly in Hm as ->. split; [reflexivity | split; reflexivity].
Qed.

Lemma emailsPerPdf_validation_witness :
  (exists issues m,
      Schema.validateConfig
        (Schema.mkDraft (Schema.JsString "archive.pst") (Schema.JsNumber 0)
           (Schema.JsString "emails_archiv") (Schema.JsString "/out")) = inl issues
      /\ In ("emailsPerPdf", m) issues /\ includes m "1" = true)
  /\ (exists cfg,
      Schema.validateConfig
        (Schema.mkDraft (Schema.JsString "archive.pst") Schema.JsUndefined
           (Schema.JsString "emails_archiv") (Schema.JsString "/out")) = inr cfg)
  /\ (exists issues,
      Schema.validateConfig
        (Schema.mkDraft (Schema.JsString "archive.pst") (Schema.JsInfinity true)
           (Schema.JsString "emails_archiv") (Schema.JsString "/out")) = inl issues
      /\ In ("emailsPerPdf", "Anzahl muss eine Zahl sein") issues
      /\ forall m, In ("emailsPerPdf", m) issues ->
           m = "Anzahl muss eine Zahl sein"
           /\ includes m "1" = false /\ includes m "25" = false).
Proof.
  split; [|split].
  - refine (proj1 (proj2 (proj2 emailsPerPdf_validation))
              (Schema.mkDraft (Schema.JsString "archive.pst") (Schema.JsNumber 0)
                 (Schema.JsString "emails_archiv") (Schema.JsString "/out"))
              0%Q eq_refl _).
    reflexivity.
  - refine (proj2 (proj1 emailsPerPdf_validation
              (Schema.mkDraft (Schema.JsString "archive.pst") Schema.JsUndefined
                 (Schema.JsString "emails_archiv") (Schema.JsString "/out"))
              eq_refl eq_refl eq_refl) _).
    left. reflexivity.
  - refine (proj2 (proj2 (proj2 (proj2 emailsPerPdf_validation)))
              (Schema.mkDraft (Schema.JsString "archive.pst") (Schema.JsInfinity true)
                 (Schema.JsString "emails_archiv") (Schema.JsString "/out")) _).
    right. exists true. reflexivity.
Defined.

(** C5, counterexample: the schema accepts 3/2 messages per document,
    which is not an integer; and it rejects [Infinity], a JavaScript
    number above 25, with the type message alone, which does not contain
    the bound 25. *)
Lemma emailsPerPdf_accepts_non_integer :
  Schema.validateConfig
    (Schema.mkDraft (Schema.JsString "archive.pst") (Schema.JsNumber (3 # 2))
       (Schema.JsString "emails_archiv") (Schema.JsString "/out"))
  = inr (mkProcessingConfig "archive.pst" (3 # 2) "emails_archiv" "/out")
  /\ ~ (exists z : Z, (inject_Z z == 3 # 2)%Q)
  /\ Schema.validateConfig
       (Schema.mkDraft (Schema.JsString "archive.pst") (Schema.JsInfinity true)
          (Schema.JsString "emails_archiv") (Schema.JsString "/out"))
     = inl [("emailsPerPdf", "Anzahl muss eine Zahl sein")]
  /\ includes "Anzahl muss eine Zahl sein" "25" = false.
Proof.
  split; [reflexivity|]. split; [|split; reflexivity].
  intros [z Hz]. unfold Qeq in Hz. cbn in Hz. lia.
Qed.

Lemma classify_suggestions_nonempty_witness :
  recoverySuggestions (mapBackendErrorToGerman 0%Z "socket closed") <> [].
Proof. apply classify_suggestions_nonempty. Defined.

(* ================================================================== *)
(** * Further properties of the code *)

(** X1: [generateRecoveryActions] offers the reset action exactly when
    the error is recoverable and an [onReset] callback is given, at most
    once, and always as the last action; no other action resets. *)
Theorem recovery_reset_last (e : LocalizedError) (ctx : Recovery.RecoveryContext) :
  Recovery.generateRecoveryActions e ctx
  = (filter (fun a => negb (RecoveryFacts.is_reset a))
       (Recovery.generateRecoveryActions e ctx)
     ++ (if recoverable e && Recovery.onReset ctx
         then [Recovery.reset_action] else []))%list.
Proof.
  unfold Recovery.generateRecoveryActions.
  rewrite filter_app.
  repeat match goal with |- context [if ?b then _ else _] => destruct b; cbn end;
    reflexivity.
Qed.

(** X2: [generateRecoveryActions] returns at most two actions, never an
    explicit [primary: false], and at most one primary action, which is
    then the first one. *)
Theorem recovery_primary_first (e : LocalizedError) (ctx : Recovery.RecoveryContext) :
  length (Recovery.generateRecoveryActions e ctx) <= 2
  /\ Forall (fun a => Recovery.primary a <> Some false)
       (Recovery.generateRecoveryActions e ctx)
  /\ Forall (fun a => RecoveryFacts.is_primary a = false)
       (tl (Recovery.generateRecoveryActions e ctx)).
Proof.
  unfold Recovery.generateRecoveryActions.
  repeat match goal with |- context [if ?b then _ else _] => destruct b; cbn end;
    repeat split; repeat constructor; cbn; try lia; discriminate.
Qed.

(** X3: confirming the cancel prompt makes [ProgressDisplay] show the
    badge "Fehler" and a [ProcessingErrorDisplay] for the cancelled
    message.  The German message contains no fingerprint, so it is
    classified as an unknown, non-recoverable error (not as
    [PROCESSING_CANCELLED]); with the [onRetry] and [onReset] callbacks of
    [App] its only action is a non-primary "Wiederholen". *)
Theorem cancel_shows_unknown_error (s : App.State) (show : bool) (now : Z) :
  let s' := fst (ProcessControl.step s show ProcessControl.CancelConfirm) in
  ProgressDisplay.appBadge s' = ProgressDisplay.BadgeError
  /\ exists e,
       ProgressDisplay.appErrorArea now s'
       = Some (e, [Recovery.mkAction "Wiederholen" Recovery.Retry None])
       /\ code e = "UNKNOWN_ERROR" /\ recoverable e = false
       /\ le_severity e = Error.
Proof.
  intros s'.
  assert (Hp : App.progress s'
               = mkProcessingProgress (totalEmails (App.progress s))
                   (processedEmails (App.progress s)) (currentPdf (App.progress s))
                   progress_messages.cancelled false
                   (Some progress_messages.cancelled)).
  { subst s'. cbn [ProcessControl.step ProcessControl.handle fold_left fst].
    rewrite AppFacts.commit_progress. reflexivity. }
  unfold ProgressDisplay.appBadge, ProgressDisplay.appErrorArea.
  rewrite Hp. split; [reflexivity|].
  eexists. split; [reflexivity|]. vm_compute. auto.
Qed.

Module AppFacts2.
Import App.

(** A render that keeps [selectedFile] and [progress] runs no effect. *)
Lemma commit_quiet (p n : State) :
  selectedFile p = selectedFile n -> progress p = progress n -> commit p n = n.
Proof.
  intros Hf Hp. unfold commit, effect_reset, effect_completion.
  rewrite Hf, Hp, String.eqb_refl, Bool.eqb_reflx, AppFacts.opt_string_eqb_refl.
  reflexivity.
Qed.

Lemma handleStartProcessing_noconfig (s : State) :
  config s = None -> handleStartProcessing s = s.
Proof. unfold handleStartProcessing. intros ->. reflexivity. Qed.

Lemma dispatch_file_select (s : App.State) (f : string) :
  App.dispatch s (App.FileSelect f)
  = App.mkState f None (App.isProcessing s) App.ready_progress
      (if truthy f then App.config_step
       else if truthy (App.selectedFile s) then App.file else App.config_step)
      None.
Proof.
  destruct s as [sf cfg run [t pr cp st ic er] stp ge].
  unfold App.dispatch, App.commit, App.effect_reset, App.effect_completion.
  cbn [App.handle App.handleFileSelect App.setSelectedFile App.setGlobalError
       App.setConfig App.setProgress App.setCurrentStep App.selectedFile
       App.progress App.isProcessing App.ready_progress isComplete error App.finished].
  destruct f as [|a f]; destruct sf as [|b sf]; cbn [truthy String.eqb negb];
    repeat match goal with |- context [if ?b then _ else _] => destruct b; cbn end;
    reflexivity.
Qed.

End AppFacts2.

(** X4: in every reachable state with the run flag set, [ProgressDisplay]
    shows the badge "Verarbeitung läuft": such a state has neither an
    error nor a completed progress. *)
Theorem running_badge_processing (s : App.State) :
  App.reachable s -> App.isProcessing s = true ->
  ProgressDisplay.appBadge s = ProgressDisplay.BadgeProcessing.
Proof.
  intros Hr Hrun.
  pose proof (AppFacts.reachable_running_unfinished s Hr Hrun) as Hfin.
  unfold App.finished in Hfin. apply orb_false_iff in Hfin as [Hc He].
  unfold ProgressDisplay.appBadge, ProgressDisplay.getStatusBadge.
  rewrite He, Hc, Hrun. reflexivity.
Qed.

Lemma running_badge_processing_witness :
  App.reachable scenario_running /\ App.isProcessing scenario_running = true
  /\ ProgressDisplay.appBadge scenario_running = ProgressDisplay.BadgeProcessing.
Proof.
  pose proof scenario_running_reachable as Hr.
  assert (Hrun : App.isProcessing scenario_running = true) by (vm_compute; reflexivity).
  split; [exact Hr|]. split; [exact Hrun|].
  exact (running_badge_processing scenario_running Hr Hrun).
Defined.

(** X5: [handleReset] returns the application to its initial state from
    any state, including a running one; no effect changes that. *)
Theorem reset_returns_initial (s : App.State) :
  App.dispatch s App.ResetApp = App.initial.
Proof.
  destruct s as [sf cfg run [t pr cp st ic er] stp ge].
  unfold App.dispatch, App.commit, App.effect_reset, App.effect_completion.
  cbn.
  repeat match goal with |- context [if ?b then _ else _] => destruct b; cbn end;
    reflexivity.
Qed.

(** X6: selecting a file clears the configuration, the global error and
    the progress, and keeps the run flag as it was (also during a run).
    A non-empty path moves to the configuration step; the empty path goes
    back to file selection, except when no file was selected before: then
    the reset effect does not run and the wizard stays on the
    configuration step with no file. *)
Theorem file_select_state (s : App.State) (f : string) :
  App.dispatch s (App.FileSelect f)
  = App.mkState f None (App.isProcessing s) App.ready_progress
      (if truthy f then App.config_step
       else if truthy (App.selectedFile s) then App.file else App.config_step)
      None.
Proof. apply AppFacts2.dispatch_file_select. Qed.

(** X7: a configuration change stores the configuration with the selected
    file, clears the global error, moves to the process-control step
    exactly when the base name and the directory are non-empty and the
    count is positive, and otherwise keeps the step; it never changes the
    run flag or the progress, so during a run a valid configuration moves
    the wizard back to the process-control step while it keeps running. *)
Theorem config_change_state (s : App.State) (c : ProcessingConfig) :
  let s' := App.dispatch s (App.ConfigChange c) in
  App.currentStep s'
  = (if truthy (baseFileName c) && truthy (outputDirectory c)
        && Qltb 0 (emailsPerPdf c)
     then App.process else App.currentStep s)
  /\ App.config s'
     = Some (mkProcessingConfig (App.selectedFile s) (emailsPerPdf c)
               (baseFileName c) (outputDirectory c))
  /\ App.isProcessing s' = App.isProcessing s
  /\ App.progress s' = App.progress s
  /\ App.selectedFile s' = App.selectedFile s
  /\ App.globalError s' = None.
Proof.
  intros s'. subst s'. unfold App.dispatch.
  rewrite AppFacts2.commit_quiet;
    cbn [App.handle]; unfold App.handleConfigChange; cbn;
    destruct (_ && _ && _); cbn; repeat split; reflexivity.
Qed.

(** X8: the start button of [ProcessControl] keeps the cancel prompt as
    it is, and starts processing exactly when [canStartProcessing] holds;
    otherwise the state is unchanged.  The extra [isProcessing] test of
    [handleStart] never matters, since [canStartProcessing] already
    requires that no run is active. *)
Theorem start_click_effect (s : App.State) (show : bool) :
  ProcessControl.step s show ProcessControl.StartClick
  = (if App.canStartProcessing s then App.dispatch s App.StartProcessing else s,
     show).
Proof.
  unfold ProcessControl.step, ProcessControl.handle, App.canStartProcessing.
  destruct (App.config s) as [c|] eqn:Hc.
  - destruct (App.isProcessing s);
      [rewrite !andb_false_r; cbn; f_equal; apply AppFacts.commit_same|].
    rewrite !andb_true_r, orb_false_r.
    destruct (_ && _ && _ && _); cbn; [reflexivity|].
    f_equal. apply AppFacts.commit_same.
  - cbn. f_equal. apply AppFacts.commit_same.
Qed.

(** X9: retrying behaves exactly as starting: the guard of [handleRetry]
    repeats the one of [handleStartProcessing]. *)
Theorem retry_is_start (s : App.State) :
  App.dispatch s App.Retry = App.dispatch s App.StartProcessing.
Proof.
  unfold App.dispatch. cbn [App.handle]. unfold App.handleRetry.
  destruct (App.config s) eqn:Hc; [reflexivity|].
  rewrite (AppFacts2.handleStartProcessing_noconfig s Hc). reflexivity.
Qed.

(** X10: no handler of [App] ever sets a global error: in every reachable
    state [globalError] is [null], so the global [ErrorDisplay] is never
    rendered. *)
Theorem reachable_no_global_error (s : App.State) :
  App.reachable s -> App.globalError s = None.
Proof.
  induction 1 as [|s e _ IH]; [reflexivity|].
  unfold App.dispatch, App.commit, App.effect_reset, App.effect_completion.
  destruct e; cbn [App.handle];
    unfold App.handleRetry, App.handleFileSelect, App.handleConfigChange,
      App.handleStartProcessing, App.handleCancelProcessing, App.handleReset;
    repeat match goal with
           | |- context [match ?x with Some _ => _ | None => _ end] => destruct x
           | |- context [if ?b then _ else _] => destruct b
           end;
    cbn; auto.
Qed.

Lemma reachable_no_global_error_witness :
  App.reachable scenario_running /\ App.globalError scenario_running = None.
Proof.
  pose proof scenario_running_reachable as Hr.
  split; [exact Hr|]. exact (reachable_no_global_error scenario_running Hr).
Defined.

(** X11: in every reachable state the progress step has a configuration:
    only [handleStartProcessing] enters it, and only with one. *)
Theorem reachable_progress_has_config (s : App.State) :
  App.reachable s -> App.currentStep s = App.progress_step -> App.config s <> None.
Proof.
  induction 1 as [|s e _ IH]; [discriminate|].
  unfold App.dispatch, App.commit, App.effect_reset, App.effect_completion.
  destruct e; cbn [App.handle];
    unfold App.handleRetry, App.handleFileSelect, App.handleConfigChange,
      App.handleStartProcessing, App.handleCancelProcessing, App.handleReset;
    repeat match goal with
           | |- context [match ?x with Some _ => _ | None => _ end] => destruct x eqn:?
           | |- context [if ?b then _ else _] => destruct b
           end;
    cbn; intros Hs;
    first [discriminate | congruence | (specialize (IH Hs); congruence)].
Qed.

Lemma reachable_progress_has_config_witness :
  App.reachable scenario_running /\ App.currentStep scenario_running = App.progress_step
  /\ App.config scenario_running <> None.
Proof.
  pose proof scenario_running_reachable as Hr.
  assert (Hs : App.currentStep scenario_running = App.progress_step)
    by (vm_compute; reflexivity).
  split; [exact Hr|]. split; [exact Hs|].
  exact (reachable_progress_has_config scenario_running Hr Hs).
Defined.

Module FileInputFacts.
Import FileSelector FileInput.

Lemma validatePstFile_name (now : Z) (f : File) :
  validatePstFile now f = None -> truthy (name f) = true.
Proof.
  unfold validatePstFile. destruct (name f) as [|a n]; [cbn; discriminate|].
  intros _. reflexivity.
Qed.

Lemma handleFileSelect_outcome (now : Z) (err : option LocalizedError) (f : File) :
  handleFileSelect now err f
  = match validatePstFile now f with
    | Some e => mkOut (Some e) [e] []
    | None => mkOut None [] [name f]
    end.
Proof. reflexivity. Qed.

End FileInputFacts.

(** X12: a drop always clears the hover flag, and passes a path on only
    when the component is enabled and exactly one file is dropped that
    passes [validatePstFile]; the path is that file's name. *)
Theorem drop_commits (now : Z) (disabled : bool) (err : option LocalizedError)
  (files : list FileSelector.File) :
  fst (FileInput.handleDrop now disabled err files) = false
  /\ FileSelector.committed (snd (FileInput.handleDrop now disabled err files))
     = if disabled then []
       else match files with
            | [f] => match FileSelector.validatePstFile now f with
                     | None => [FileSelector.name f]
                     | Some _ => []
                     end
            | _ => []
            end.
Proof.
  unfold FileInput.handleDrop.
  destruct disabled; [split; reflexivity|].
  destruct files as [|f [|g rest]]; [split; reflexivity| |split; reflexivity].
  cbn [fst snd]. rewrite FileInputFacts.handleFileSelect_outcome.
  destruct (FileSelector.validatePstFile now f); split; reflexivity.
Qed.

(** X13: on an enabled component every drop has exactly one of two
    outcomes: one path is passed on and the local error is cleared, with
    nothing logged; or no path is passed on and exactly the error now
    shown is logged, once. *)
Theorem drop_error_logged (now : Z) (err : option LocalizedError)
  (files : list FileSelector.File) :
  let o := snd (FileInput.handleDrop now false err files) in
  (exists p, FileSelector.committed o = [p] /\ FileSelector.local_error o = None
             /\ FileSelector.logged o = [])
  \/ (exists e, FileSelector.committed o = [] /\ FileSelector.local_error o = Some e
                /\ FileSelector.logged o = [e]).
Proof.
  intros o. subst o. unfold FileInput.handleDrop.
  destruct files as [|f [|g rest]]; cbn [snd].
  - right. eexists. repeat split.
  - rewrite FileInputFacts.handleFileSelect_outcome.
    destruct (FileSelector.validatePstFile now f) as [e|].
    + right. exists e. repeat split.
    + left. eexists. repeat split.
  - right. eexists. repeat split.
Qed.

(** X14: an enabled component rejects a drop of no file with the warning
    [NO_FILE_DETECTED] and a drop of several files with the warning
    [MULTIPLE_FILES_SELECTED], whose context records the number of files;
    both are recoverable. *)
Theorem drop_count_errors (now : Z) (err : option LocalizedError)
  (files : list FileSelector.File) :
  length files <> 1%nat ->
  exists e,
    FileSelector.local_error (snd (FileInput.handleDrop now false err files)) = Some e
    /\ le_severity e = Warning /\ recoverable e = true
    /\ (if (length files =? 0)%nat
        then code e = "NO_FILE_DETECTED" /\ context e = None
        else code e = "MULTIPLE_FILES_SELECTED"
             /\ context e = Some [("fileCount", CNum (Z.of_nat (length files)))]).
Proof.
  intros Hlen. unfold FileInput.handleDrop.
  destruct files as [|f [|g rest]]; cbn [snd length Nat.eqb].
  - eexists. repeat split.
  - cbn in Hlen. contradiction.
  - eexists. repeat split.
Qed.

Lemma drop_count_errors_witness :
  length [FileSelector.mkFile "a.pst" 2048; FileSelector.mkFile "b.pst" 4096] <> 1%nat
  /\ exists e,
    FileSelector.local_error
      (snd (FileInput.handleDrop 0%Z false None
              [FileSelector.mkFile "a.pst" 2048; FileSelector.mkFile "b.pst" 4096]))
    = Some e /\ code e = "MULTIPLE_FILES_SELECTED".
Proof.
  assert (H : length [FileSelector.mkFile "a.pst" 2048; FileSelector.mkFile "b.pst" 4096]
              <> 1%nat) by (cbn; lia).
  split; [exact H|].
  destruct (drop_count_errors 0%Z None _ H) as [e [He [_ [_ Hc]]]].
  exists e. split; [exact He|]. exact (proj1 Hc).
Defined.

(** X15: leaving while the pointer is still inside the bounding rectangle
    (borders included) keeps the hover flag; only a pointer outside it
    clears the flag. *)
Theorem drag_leave_inside (r : FileInput.Rect) (x y : Q) (isDragOver : bool) :
  (FileInput.left r <= x)%Q -> (x <= FileInput.right r)%Q ->
  (FileInput.top r <= y)%Q -> (y <= FileInput.bottom r)%Q ->
  FileInput.handleDragLeave r x y isDragOver = isDragOver.
Proof.
  intros H1 H2 H3 H4. unfold FileInput.handleDragLeave, Qltb.
  apply Qle_bool_iff in H1, H2, H3, H4.
  rewrite H1, H2, H3, H4. reflexivity.
Qed.

Lemma drag_leave_inside_witness :
  FileInput.handleDragLeave (FileInput.mkRect 0 100 0 50) 100 25 true = true.
Proof.
  apply drag_leave_inside; cbn; unfold Qle; cbn; lia.
Defined.

(** X16: choosing files in the file dialog acts on the first file alone,
    exactly as dropping that file alone; dropping the same several files
    passes no path on. *)
Theorem input_change_first_file (now : Z) (err : option LocalizedError)
  (f g : FileSelector.File) (rest : list FileSelector.File) :
  FileInput.handleFileInputChange now err (Some (f :: rest))
  = snd (FileInput.handleDrop now false err [f])
  /\ FileSelector.committed (snd (FileInput.handleDrop now false err (f :: g :: rest))) = []
  /\ FileInput.handleFileInputChange now err (Some []) = FileSelector.mkOut err [] []
  /\ FileInput.handleFileInputChange now err None = FileSelector.mkOut err [] [].
Proof. repeat split. Qed.

(** X17: dropping a valid PST file on the enabled [FileSelector] of
    [App] and passing the path on selects it: the wizard moves to the
    configuration step with no configuration, no global error and the
    ready progress, keeping the run flag. *)
Theorem drop_valid_file_selects (s : App.State) (now : Z) (err : option LocalizedError)
  (f : FileSelector.File) :
  FileSelector.validatePstFile now f = None ->
  fold_left App.dispatch
    (map App.FileSelect
       (FileSelector.committed (snd (FileInput.handleDrop now false err [f])))) s
  = App.mkState (FileSelector.name f) None (App.isProcessing s) App.ready_progress
      App.config_step None.
Proof.
  intros Hv.
  unfold FileInput.handleDrop. cbn [snd].
  rewrite FileInputFacts.handleFileSelect_outcome, Hv. cbn [FileSelector.committed map fold_left].
  rewrite AppFacts2.dispatch_file_select.
  rewrite (FileInputFacts.validatePstFile_name now f Hv). reflexivity.
Qed.

Lemma drop_valid_file_selects_witness :
  FileSelector.validatePstFile 0%Z (FileSelector.mkFile "archive.pst" 2048) = None
  /\ fold_left App.dispatch
       (map App.FileSelect
          (FileSelector.committed
             (snd (FileInput.handleDrop 0%Z false None
                     [FileSelector.mkFile "archive.pst" 2048])))) App.initial
     = App.mkState "archive.pst" None false App.ready_progress App.config_step None.
Proof.
  assert (Hv : FileSelector.validatePstFile 0%Z (FileSelector.mkFile "archive.pst" 2048)
               = None) by (vm_compute; reflexivity).
  split; [exact Hv|].
  exact (drop_valid_file_selects App.initial 0%Z None _ Hv).
Defined.

(** X18: every action that [generateRecoveryActions] offers gets an icon
    in [ErrorDisplay], and the icon found from its label is the one of the
    callback it runs. *)
Theorem recovery_action_icons (e : LocalizedError) (ctx : Recovery.RecoveryContext) :
  Forall (fun a => ErrorDisplayView.getActionIcon a
                   = Some (RecoveryFacts.icon_of (Recovery.action a)))
    (Recovery.generateRecoveryActions e ctx).
Proof.
  unfold Recovery.generateRecoveryActions.
  repeat match goal with |- context [if ?b then _ else _] => destruct b; cbn end;
    repeat constructor.
Qed.

(** X19: a backend error shown by [ProgressDisplay] gets the destructive
    alert style unless it is classified as [PROCESSING_CANCELLED], the only
    class with severity [info]. *)
Theorem backend_error_variant (now : Z) (msg : string) :
  ErrorDisplayView.getAlertVariant (mapBackendErrorToGerman now msg)
  = if String.eqb (code (mapBackendErrorToGerman now msg)) "PROCESSING_CANCELLED"
    then ErrorDisplayView.Default else ErrorDisplayView.Destructive.
Proof.
  unfold mapBackendErrorToGerman. split_includes; reflexivity.
Qed.

Module ZodFacts.
Import Zod.

Section Group.
Context {A I : Type} (f : I -> string) (g : I -> A).

Definition group_step (acc : option (list (string * list A))) (i : I) :=
  match acc with
  | None => None
  | Some errors => pushAt errors (f i) (g i)
  end.

Lemma own_push_own (e : list (string * list A)) (p k : string) (v : A) :
  own (push_own e p v) k
  = if String.eqb k p then option_map (fun vs => (vs ++ [v])%list) (own e k)
    else own e k.
Proof.
  induction e as [|[k' vs] rest IH]; cbn.
  - destruct (String.eqb k p); reflexivity.
  - destruct (String.eqb p k') eqn:Hpk; cbn.
    + apply String.eqb_eq in Hpk. subst k'.
      destruct (String.eqb k p); reflexivity.
    + rewrite IH. destruct (String.eqb k k') eqn:Hkk, (String.eqb k p) eqn:Hkp;
        try reflexivity.
      apply String.eqb_eq in Hkk, Hkp. subst. rewrite String.eqb_refl in Hpk.
      discriminate.
Qed.

Lemma own_app_new (e : list (string * list A)) (p k : string) (v : A) :
  own (e ++ [(p, [v])])%list k
  = match own e k with
    | Some vs => Some vs
    | None => if String.eqb k p then Some [v] else None
    end.
Proof.
  induction e as [|[k' vs] rest IH]; cbn.
  - destruct (String.eqb k p); reflexivity.
  - destruct (String.eqb k k'); [reflexivity | exact IH].
Qed.

Lemma count_push_own (e : list (string * list A)) (p : string) (v : A) vs :
  own e p = Some vs ->
  errorCount (push_own e p v) = S (errorCount e).
Proof.
  unfold errorCount. induction e as [|[k' ws] rest IH]; cbn; [discriminate|].
  destruct (String.eqb p k'); intros H.
  - cbn. rewrite !length_app. cbn. lia.
  - cbn. rewrite !length_app. rewrite (IH H). lia.
Qed.

Lemma pushAt_some (e e' : list (string * list A)) (p : string) (v : A) :
  pushAt e p v = Some e' ->
  (forall k, lookup e' k = (lookup e k ++ (if String.eqb k p then [v] else []))%list)
  /\ errorCount e' = S (errorCount e)
  /\ (forall k, own e' k <> None -> own e k <> None \/ k = p).
Proof.
  unfold pushAt, lookup. destruct (own e p) as [vs|] eqn:Hown.
  - intros H. injection H as <-. split; [|split].
    + intros k. rewrite own_push_own.
      destruct (String.eqb k p) eqn:Hkp.
      * apply String.eqb_eq in Hkp. subst k. rewrite Hown. reflexivity.
      * destruct (own e k); rewrite ?app_nil_r; reflexivity.
    + exact (count_push_own e p v vs Hown).
    + intros k. rewrite own_push_own.
      destruct (String.eqb k p); [|auto].
      destruct (own e k); cbn; intros Hn; [left; discriminate | contradiction].
  - destruct (inherited p); [discriminate|]. intros H. injection H as <-.
    split; [|split].
    + intros k. rewrite own_app_new.
      destruct (own e k) eqn:Hk.
      * destruct (String.eqb k p) eqn:Hkp; [|rewrite app_nil_r; reflexivity].
        apply String.eqb_eq in Hkp. subst k. congruence.
      * destruct (String.eqb k p); reflexivity.
    + unfold errorCount. rewrite map_app, concat_app, length_app. cbn. lia.
    + intros k. rewrite own_app_new. destruct (own e k); [left; discriminate|].
      destruct (String.eqb k p) eqn:Hkp; [|auto].
      apply String.eqb_eq in Hkp. auto.
Qed.

Lemma fold_none (l : list I) :
  fold_left group_step l None = None.
Proof. induction l; cbn; auto. Qed.

Lemma group_fold_some (l : list I) (acc errs : list (string * list A)) :
  fold_left group_step l (Some acc) = Some errs ->
  (forall k, lookup errs k
             = (lookup acc k ++ map g (filter (fun i => String.eqb k (f i)) l))%list)
  /\ errorCount errs = (errorCount acc + length l)%nat.
Proof.
  revert acc. induction l as [|i l IH]; intros acc H; cbn in H.
  - injection H as <-. split; [intros k; rewrite app_nil_r; reflexivity | cbn; lia].
  - destruct (pushAt acc (f i) (g i)) as [acc'|] eqn:Hp;
      [|rewrite fold_none in H; discriminate].
    destruct (pushAt_some acc acc' (f i) (g i) Hp) as [Hl [Hc _]].
    destruct (IH acc' H) as [IHl IHc]. split.
    + intros k. rewrite IHl, Hl. cbn.
      destruct (String.eqb k (f i)); cbn; rewrite <- app_assoc; reflexivity.
    + rewrite IHc, Hc. cbn. lia.
Qed.

Lemma group_fold_total (l : list I) (acc : list (string * list A)) :
  (forall i, In i l -> inherited (f i) = false) ->
  exists errs, fold_left group_step l (Some acc) = Some errs.
Proof.
  revert acc. induction l as [|i l IH]; intros acc Hl; cbn; [eauto|].
  unfold pushAt.
  assert (Hi : inherited (f i) = false) by (apply Hl; left; reflexivity).
  destruct (own acc (f i)); [|rewrite Hi]; apply IH; intros j Hj; apply Hl; right; exact Hj.
Qed.

(** The object never owns a property of [Object.prototype]. *)
Definition own_keys_plain (e : list (string * list A)) : Prop :=
  forall k, own e k <> None -> inherited k = false.

Lemma group_fold_throws (l : list I) (acc : list (string * list A)) :
  own_keys_plain acc ->
  (exists i, In i l /\ inherited (f i) = true) ->
  fold_left group_step l (Some acc) = None.
Proof.
  revert acc. induction l as [|i l IH]; intros acc Hplain [j [Hj Hinh]];
    [destruct Hj|].
  cbn. destruct Hj as [-> | Hj].
  - unfold pushAt.
    destruct (own acc (f j)) eqn:Hown.
    + exfalso. assert (Hn : own acc (f j) <> None) by congruence.
      apply Hplain in Hn. congruence.
    + rewrite Hinh. apply fold_none.
  - destruct (pushAt acc (f i) (g i)) as [acc'|] eqn:Hp; [|apply fold_none].
    apply IH; [|eauto].
    destruct (pushAt_some acc acc' (f i) (g i) Hp) as [_ [_ Hk]].
    intros k Hk'. destruct (Hk k Hk') as [Ho | ->]; [apply Hplain; exact Ho|].
    unfold pushAt in Hp. destruct (own acc (f i)) eqn:Ho; [apply Hplain; congruence|].
    destruct (inherited (f i)); [discriminate | reflexivity].
Qed.

End Group.

End ZodFacts.

(** X20: when no issue path is a property of [Object.prototype],
    [transformZodErrorToGerman] returns an object whose entry for each key
    holds the converted issues with that joined path (an empty path under
    "root"), in the order of the issues; [ValidationErrorDisplay] counts
    exactly one error per issue. *)
Theorem zod_german_grouping (now : Z) (issues : list Zod.ZodIssue) :
  (forall i, In i issues -> Zod.inherited (Zod.german_path i) = false) ->
  exists errs,
    Zod.transformZodErrorToGerman now issues = Some errs
    /\ (forall k, Zod.lookup errs k
                  = map (fun i => Zod.germanIssue now (Zod.german_path i) i)
                      (filter (fun i => String.eqb k (Zod.german_path i)) issues))
    /\ Zod.errorCount errs = length issues.
Proof.
  intros Hplain.
  destruct (ZodFacts.group_fold_total Zod.german_path
              (fun i => Zod.germanIssue now (Zod.german_path i) i) issues [] Hplain)
    as [errs He].
  exists errs. split; [exact He|].
  destruct (ZodFacts.group_fold_some _ _ issues [] errs He) as [Hl Hc].
  split; [intros k; rewrite Hl; reflexivity | exact Hc].
Qed.

Lemma zod_german_grouping_witness :
  exists errs,
    Zod.transformZodErrorToGerman 0%Z zod_sample_issues = Some errs
    /\ Zod.errorCount errs = 3%nat.
Proof.
  assert (Hplain : forall i, In i zod_sample_issues ->
                     Zod.inherited (Zod.german_path i) = false).
  { intros i Hi. repeat destruct Hi as [<- | Hi]; [reflexivity..| destruct Hi]. }
  destruct (zod_german_grouping 0%Z zod_sample_issues Hplain) as [errs [He [_ Hc]]].
  exists errs. split; [exact He | exact Hc].
Defined.

(** X21: every entry [transformZodErrorToGerman] produces is a
    recoverable warning under a non-empty key, and its context records
    that key and the Zod code. *)
Theorem zod_german_entries (now : Z) (issues : list Zod.ZodIssue)
  (errs : list (string * list LocalizedError)) (k : string) (e : LocalizedError) :
  Zod.transformZodErrorToGerman now issues = Some errs ->
  In e (Zod.lookup errs k) ->
  le_severity e = Warning /\ recoverable e = true /\ k <> ""
  /\ exists zodCode, context e = Some [("path", CStr k); ("zodCode", CStr zodCode)].
Proof.
  intros He Hin.
  destruct (ZodFacts.group_fold_some Zod.german_path
              (fun i => Zod.germanIssue now (Zod.german_path i) i) issues [] errs He)
    as [Hl _].
  rewrite Hl in Hin. cbn in Hin.
  apply in_map_iff in Hin as [i [<- Hi]].
  apply filter_In in Hi as [_ Hk]. apply String.eqb_eq in Hk. subst k.
  assert (Hne : Zod.german_path i <> "").
  { unfold Zod.german_path. destruct (truthy (Zod.join "." (Zod.iss_path i))) eqn:Ht;
      [|discriminate]. intros Hz. rewrite Hz in Ht. discriminate. }
  unfold Zod.germanIssue.
  repeat match goal with |- context [if ?b then _ else _] => destruct b end;
    cbn; repeat split; eauto.
Qed.

Lemma zod_german_entries_witness :
  match Zod.transformZodErrorToGerman 0%Z zod_sample_issues with
  | Some errs => Forall (fun e => le_severity e = Warning) (Zod.lookup errs "baseFileName")
  | None => False
  end.
Proof.
  destruct (Zod.transformZodErrorToGerman 0%Z zod_sample_issues) as [errs|] eqn:He.
  - apply Forall_forall. intros e Hin.
    exact (proj1 (zod_german_entries 0%Z zod_sample_issues errs "baseFileName" e He Hin)).
  - vm_compute in He. discriminate.
Defined.

(** X22: an issue whose joined path names a property of
    [Object.prototype] (such as "toString" or "constructor") makes
    [transformZodErrorToGerman] throw: the inherited value is truthy, so no
    array is created, and it has no [push]. *)
Theorem zod_german_throws (now : Z) (issues : list Zod.ZodIssue) :
  (exists i, In i issues /\ Zod.inherited (Zod.german_path i) = true) ->
  Zod.transformZodErrorToGerman now issues = None.
Proof.
  intros Hex.
  apply (ZodFacts.group_fold_throws Zod.german_path
           (fun i => Zod.germanIssue now (Zod.german_path i) i) issues []);
    [intros k Hk; contradiction Hk; reflexivity | exact Hex].
Qed.

Lemma zod_german_throws_witness :
  Zod.transformZodErrorToGerman 0%Z
    [Zod.mkZodIssue "custom" "x" ["toString"] "" ""] = None.
Proof.
  apply zod_german_throws.
  exists (Zod.mkZodIssue "custom" "x" ["toString"] "" ""). split; [left; reflexivity|].
  reflexivity.
Defined.

(** X23: when no joined path is a property of [Object.prototype],
    [transformZodError] groups the issue messages by joined path, in
    order; issues on the object itself land under the empty key (there is
    no "root" fallback here). *)
Theorem zod_messages_grouping (issues : list Zod.ZodIssue) :
  (forall i, In i issues -> Zod.inherited (Zod.join "." (Zod.iss_path i)) = false) ->
  exists errs,
    Zod.transformZodError issues = Some errs
    /\ (forall k, Zod.lookup errs k
                  = map Zod.iss_message
                      (filter (fun i => String.eqb k (Zod.join "." (Zod.iss_path i)))
                         issues)).
Proof.
  intros Hplain.
  destruct (ZodFacts.group_fold_total (fun i => Zod.join "." (Zod.iss_path i))
              Zod.iss_message issues [] Hplain) as [errs He].
  exists errs. split; [exact He|].
  destruct (ZodFacts.group_fold_some _ _ issues [] errs He) as [Hl _].
  intros k. rewrite Hl. reflexivity.
Qed.

Lemma zod_messages_grouping_witness :
  exists errs,
    Zod.transformZodError zod_sample_issues = Some errs
    /\ Zod.lookup errs "" = ["Ausgabeverzeichnis fehlt"].
Proof.
  assert (Hplain : forall i, In i zod_sample_issues ->
                     Zod.inherited (Zod.join "." (Zod.iss_path i)) = false).
  { intros i Hi. repeat destruct Hi as [<- | Hi]; [reflexivity..| destruct Hi]. }
  destruct (zod_messages_grouping zod_sample_issues Hplain) as [errs [He Hl]].
  exists errs. split; [exact He|]. rewrite Hl. reflexivity.
Defined.

Module LocFacts.
Import Localization.

Lemma str_app_assoc (a b c : string) : (a ++ b) ++ c = a ++ (b ++ c).
Proof. induction a; cbn; [reflexivity | rewrite IHa; reflexivity]. Qed.

Lemma str_app_empty (a : string) : a ++ EmptyString = a.
Proof. induction a; cbn; [reflexivity | rewrite IHa; reflexivity]. Qed.

Lemma split_dot_aux_cons (s cur : string) : split_dot_aux s cur <> [].
Proof.
  revert cur. induction s as [|a s IH]; intros cur; cbn; [discriminate|].
  destruct (Ascii.eqb a "."%char); [discriminate | apply IH].
Qed.

Lemma join_cons (x : string) (l : list string) :
  l <> [] -> Zod.join "." (x :: l) = x ++ "." ++ Zod.join "." l.
Proof. destruct l; [contradiction | reflexivity]. Qed.

Lemma join_split_aux (s cur : string) : Zod.join "." (split_dot_aux s cur) = cur ++ s.
Proof.
  revert cur. induction s as [|a s IH]; intros cur; cbn.
  - rewrite str_app_empty. reflexivity.
  - destruct (Ascii.eqb a "."%char) eqn:Ha.
    + apply Ascii.eqb_eq in Ha. subst a.
      rewrite join_cons by apply split_dot_aux_cons. rewrite IH. reflexivity.
    + rewrite IH, str_app_assoc. reflexivity.
Qed.

(** [key.split(".").join(".")] is [key]. *)
Lemma join_split (s : string) : Zod.join "." (split_dot s) = s.
Proof. apply join_split_aux. Qed.

Lemma split_no_dot (s t cur : string) :
  has_dot s = false -> split_dot_aux (s ++ t) cur = split_dot_aux t (cur ++ s).
Proof.
  revert cur. induction s as [|a s IH]; intros cur Hd; cbn [append split_dot_aux].
  - rewrite str_app_empty. reflexivity.
  - unfold has_dot in Hd. cbn [list_ascii_of_string existsb] in Hd.
    apply orb_false_iff in Hd as [Ha Hs]. rewrite Ascii.eqb_sym in Ha.
    rewrite Ha, IH by exact Hs. rewrite str_app_assoc. reflexivity.
Qed.

Lemma split_join (p : list string) :
  p <> [] -> Forall (fun k => has_dot k = false) p -> split_dot (Zod.join "." p) = p.
Proof.
  unfold split_dot.
  induction p as [|x [|y q] IH]; intros Hne Hd; [contradiction| |].
  - inversion Hd as [|? ? Hx _]; subst. cbn.
    rewrite <- (str_app_empty x) at 1. rewrite split_no_dot by exact Hx.
    reflexivity.
  - inversion Hd as [|? ? Hx Hq]; subst.
    rewrite join_cons by discriminate.
    rewrite split_no_dot by exact Hx.
    cbn [append split_dot_aux]. rewrite Ascii.eqb_refl.
    rewrite IH by (discriminate || exact Hq). reflexivity.
Qed.

Lemma leaves_obj (fields : list (string * JsVal)) (p : list string) (s : string) :
  In (p, s) (leaves (JObj fields))
  <-> exists k w q, p = k :: q /\ In (k, w) fields /\ In (q, s) (leaves w).
Proof.
  induction fields as [|[k0 w0] rest IH]; cbn.
  - split; [contradiction | intros (k & w & q & _ & [] & _)].
  - rewrite in_app_iff, in_map_iff. cbn in IH. rewrite IH. split.
    + intros [[[q s'] [Heq Hin]] | (k & w & q & -> & Hkw & Hq)].
      * injection Heq as <- <-. exists k0, w0, q. auto.
      * exists k, w, q. auto.
    + intros (k & w & q & -> & [Heq | Hkw] & Hq).
      * injection Heq as <- <-. left. exists (q, s). auto.
      * right. exists k, w, q. auto.
Qed.

Lemma well_keyed_obj (fields : list (string * JsVal)) :
  well_keyed (JObj fields) = true ->
  forall k w, In (k, w) fields ->
  find_own fields k = Some w /\ has_dot k = false /\ well_keyed w = true.
Proof.
  induction fields as [|[k0 w0] rest IH]; intros Hwk k w Hin; [destruct Hin|].
  cbn in Hwk. apply andb_true_iff in Hwk as [Hwk Hgo].
  apply andb_true_iff in Hwk as [Hdist Hdot].
  apply andb_true_iff in Hdist as [Hnew Hdist].
  apply andb_true_iff in Hdot as [Hd0 Hdot].
  apply andb_true_iff in Hgo as [Hw0 Hgo].
  assert (Hrest : well_keyed (JObj rest) = true)
    by (cbn; rewrite Hdist, Hdot, Hgo; reflexivity).
  destruct Hin as [Heq | Hin].
  - injection Heq as <- <-. cbn. rewrite String.eqb_refl.
    apply negb_true_iff in Hd0. auto.
  - destruct (IH Hrest k w Hin) as [Hf Hr]. cbn.
    destruct (String.eqb k k0) eqn:Hk; [|auto].
    apply String.eqb_eq in Hk. subst k0.
    apply negb_true_iff in Hnew.
    assert (Hex : existsb (String.eqb k) (map fst rest) = true).
    { apply existsb_exists. exists k. split; [|apply String.eqb_refl].
      apply in_map_iff. exists (k, w). auto. }
    congruence.
Qed.

Lemma find_own_in (fields : list (string * JsVal)) (k : string) (w : JsVal) :
  find_own fields k = Some w -> In (k, w) fields.
Proof.
  induction fields as [|[k0 w0] rest IH]; cbn; [discriminate|].
  destruct (String.eqb k k0) eqn:Hk; intros H; [|right; auto].
  apply String.eqb_eq in Hk. injection H as <-. subst. left. reflexivity.
Qed.

Lemma leaf_walk (p : list string) (v : JsVal) (s : string) :
  well_keyed v = true -> In (p, s) (leaves v) ->
  walk v p = Some (JStr s) /\ Forall (fun k => has_dot k = false) p.
Proof.
  revert v. induction p as [|k q IH]; intros v Hwk Hin.
  - destruct v as [s'| fields |]; cbn in Hin.
    + destruct Hin as [Heq | []]. injection Heq as <-. auto.
    + apply leaves_obj in Hin as (k & w & q & Heq & _). discriminate.
    + contradiction.
  - destruct v as [s'| fields |]; cbn in Hin.
    + destruct Hin as [Heq | []]. discriminate.
    + apply leaves_obj in Hin as (k' & w & q' & Heq & Hkw & Hq).
      injection Heq as <- <-.
      destruct (well_keyed_obj fields Hwk k w Hkw) as [Hf [Hd Hw]].
      destruct (IH w Hw Hq) as [Hwalk Hq'].
      cbn. rewrite Hf. auto.
    + contradiction.
Qed.

Lemma walk_leaf (p : list string) (v : JsVal) (s : string) :
  walk v p = Some (JStr s) -> In (p, s) (leaves v).
Proof.
  revert v. induction p as [|k q IH]; intros v H; cbn [walk] in H.
  - injection H as ->. left. reflexivity.
  - destruct v as [s'| fields |]; cbn [get_step] in H; try discriminate.
    destruct (find_own fields k) as [w|] eqn:Hf.
    + apply leaves_obj. exists k, w, q. split; [reflexivity|].
      split; [apply find_own_in; exact Hf | apply IH; exact H].
    + destruct (Zod.inherited k); [|discriminate].
      destruct q; cbn in H; discriminate.
Qed.

Lemma germanText_well_keyed : well_keyed germanText = true.
Proof. vm_compute. reflexivity. Qed.

(** Scanning text without an opening brace copies it. *)
Lemma scan_plain (values : list (string * option string)) (a s : string) :
  Forall (fun c => c <> "{"%char) (list_ascii_of_string a) ->
  scan values None (a ++ s) = a ++ scan values None s.
Proof.
  induction a as [|c a IH]; intros H; cbn; [reflexivity|].
  inversion H as [|? ? Hc Ha]; subst.
  destruct (Ascii.eqb_spec c "{"%char); [contradiction|].
  rewrite IH by exact Ha. reflexivity.
Qed.

Lemma scan_word (values : list (string * option string)) (w k s : string) :
  Forall (fun c => is_word c = true) (list_ascii_of_string k) ->
  scan values (Some w) (k ++ s) = scan values (Some (w ++ k)) s.
Proof.
  revert w. induction k as [|c k IH]; intros w H; cbn.
  - rewrite str_app_empty. reflexivity.
  - inversion H as [|? ? Hc Hk]; subst. rewrite Hc, IH by exact Hk.
    rewrite str_app_assoc. reflexivity.
Qed.

End LocFacts.

(** X24: [getGermanText] returns, for the dotted path of every string in
    [germanText], that string, whatever the fallback: the keys of the
    literal are distinct and contain no dot, so splitting the path gives
    back its keys. *)
Theorem german_text_leaves (p : list string) (s : string) (fallback : option string) :
  In (p, s) (Localization.leaves Localization.germanText) ->
  Localization.getGermanText (Zod.join "." p) fallback = s.
Proof.
  intros Hin.
  destruct (LocFacts.leaf_walk p _ s LocFacts.germanText_well_keyed Hin) as [Hw Hd].
  assert (Hne : p <> []).
  { intros ->. unfold Localization.germanText in Hin.
    apply LocFacts.leaves_obj in Hin as (k & w & q & Heq & _). discriminate. }
  unfold Localization.getGermanText. rewrite LocFacts.split_join by assumption.
  rewrite Hw. reflexivity.
Qed.

Lemma german_text_leaves_witness :
  In (["steps"; "progress"], "Fortschritt")
     (Localization.leaves Localization.germanText)
  /\ Localization.getGermanText "steps.progress" None = "Fortschritt".
Proof.
  assert (Hin : In (["steps"; "progress"], "Fortschritt")
                   (Localization.leaves Localization.germanText)).
  { cbn. do 5 right. left. reflexivity. }
  split; [exact Hin|].
  exact (german_text_leaves ["steps"; "progress"] "Fortschritt" None Hin).
Defined.

(** X25: for a key that is not the dotted path of a string of
    [germanText] (an object such as "steps", an unknown key, or a
    property of [Object.prototype] such as "toString"), [getGermanText]
    returns [fallback || key]. *)
Theorem german_text_fallback (key : string) (fallback : option string) :
  (forall p s, In (p, s) (Localization.leaves Localization.germanText) ->
               Zod.join "." p <> key) ->
  Localization.getGermanText key fallback = Localization.or_key fallback key.
Proof.
  intros Hnot. unfold Localization.getGermanText.
  destruct (Localization.walk Localization.germanText (Localization.split_dot key))
    as [[s| |]|] eqn:Hw; try reflexivity.
  apply LocFacts.walk_leaf in Hw.
  exfalso. apply (Hnot _ _ Hw). apply LocFacts.join_split.
Qed.

Lemma german_text_fallback_witness :
  Localization.getGermanText "toString" None = "toString".
Proof.
  apply german_text_fallback. intros p s Hin Heq.
  assert (Hall : forallb (fun ps => negb (String.eqb (Zod.join "." (fst ps)) "toString"))
                   (Localization.leaves Localization.germanText) = true)
    by (vm_compute; reflexivity).
  rewrite forallb_forall in Hall. specialize (Hall (p, s) Hin). cbn in Hall.
  rewrite Heq in Hall. discriminate.
Defined.

(** X26: [interpolate] replaces the first placeholder "{k}" of a template
    (a non-empty word [k], no brace before it) by the value for [k], keeps
    the text before it, and goes on with the rest of the template. *)
Theorem interpolate_placeholder (a k b : string)
  (values : list (string * option string)) :
  Forall (fun c => c <> "{"%char) (list_ascii_of_string a) ->
  k <> "" -> Forall (fun c => Localization.is_word c = true) (list_ascii_of_string k) ->
  Localization.interpolate (a ++ "{" ++ k ++ "}" ++ b) values
  = a ++ Localization.replacement values k ++ Localization.interpolate b values.
Proof.
  intros Ha Hk Hw. unfold Localization.interpolate.
  rewrite LocFacts.scan_plain by exact Ha. f_equal. cbn.
  rewrite LocFacts.scan_word by exact Hw. cbn. 
  destruct k as [|c k]; [contradiction|]. reflexivity.
Qed.

Lemma interpolate_placeholder_witness :
  Localization.interpolate "Datei {n} von {m}" [("n", Some "3")]
  = "Datei 3 von {m}".
Proof.
  refine (eq_trans (interpolate_placeholder "Datei " "n" " von {m}" _ _ _ _) _);
    [repeat constructor; discriminate | discriminate | repeat constructor | ].
  reflexivity.
Defined.

(** X27: a placeholder whose key has no own entry in [values] is kept
    verbatim, unless the key names a property of [Object.prototype]:
    then the placeholder is always replaced, by that property's string. *)
Theorem interpolate_missing_key (values : list (string * option string)) (k : string) :
  find (fun kv => String.eqb k (fst kv)) values = None ->
  Localization.replacement values k
  = if Zod.inherited k then Localization.inherited_string k
    else "{" ++ k ++ "}".
Proof.
  intros Hf. unfold Localization.replacement, Localization.value_of.
  rewrite Hf. destruct (Zod.inherited k); reflexivity.
Qed.

Lemma interpolate_missing_key_witness :
  Localization.replacement [] "toString" = "function toString() { [native code] }"
  /\ Localization.replacement [] "count" = "{count}".
Proof.
  split.
  - exact (interpolate_missing_key [] "toString" eq_refl).
  - exact (interpolate_missing_key [] "count" eq_refl).
Defined.

Module SchemaFacts2.
Import Schema.

(** A non-empty lower-cased string comes from a non-empty string. *)
Lemma toLowerCase_length_pos (s : string) :
  (1 <= String.length (toLowerCase s))%nat -> (1 <= String.length s)%nat.
Proof. destruct s; cbn; lia. Qed.

Lemma endsWith_length (s : string) :
  endsWith s ".pst" = true -> (4 <= String.length s)%nat.
Proof.
  unfold endsWith. intros H. apply andb_true_iff in H as [H _].
  apply Nat.leb_le in H. exact H.
Qed.

Lemma name_regex_length (s : string) : name_regex s = true -> (1 <= String.length s)%nat.
Proof.
  unfold name_regex. intros H. apply andb_true_iff in H as [H _].
  apply Nat.leb_le in H. exact H.
Qed.

Lemma trim_empty_length (s : string) :
  trim s <> "" -> (1 <= String.length s)%nat.
Proof. destruct s; cbn; [contradiction | lia]. Qed.

Lemma check_nil (b : bool) (m : string) : check b m = [] <-> b = true.
Proof. destruct b; cbn; split; congruence. Qed.

Lemma trim_nonempty (s : string) : Nat.ltb 0 (String.length s) = true <-> s <> "".
Proof.
  destruct s; cbn; split; try congruence; try discriminate; reflexivity.
Qed.

End SchemaFacts2.

(** X28: a draft of three strings and a number parses exactly when the
    lower-cased file path ends in ".pst", the number lies in [1, 25], the
    base name matches [/^[a-zA-Z0-9_-]+$/] and the directory is not blank;
    the minimum-length checks never decide alone, and the values are kept
    as given (the directory is not trimmed). *)
Theorem validateConfig_accepts (p b o : string) (n : Q) (cfg : ProcessingConfig) :
  Schema.validateConfig
    (Schema.mkDraft (Schema.JsString p) (Schema.JsNumber n)
       (Schema.JsString b) (Schema.JsString o)) = inr cfg
  <-> cfg = mkProcessingConfig p n b o
      /\ endsWith (toLowerCase p) ".pst" = true
      /\ (1 <= n)%Q /\ (n <= 25)%Q
      /\ Schema.name_regex b = true
      /\ Schema.trim o <> "".
Proof.
  rewrite SchemaFacts.validateConfig_inr. cbn [Schema.d_pstFilePath
    Schema.d_emailsPerPdf Schema.d_baseFileName Schema.d_outputDirectory].
  rewrite SchemaFacts.emailsPerPdf_field_inr.
  unfold Schema.pstFilePath_field, Schema.baseFileName_field,
    Schema.outputDirectory_field, Schema.string_field, Schema.checks.
  split.
  - intros [Hp [He [Hb Ho]]].
    destruct (Nat.leb 1 (String.length p)), (endsWith (toLowerCase p) ".pst") eqn:E1;
      cbn in Hp; try discriminate.
    destruct (Nat.leb 1 (String.length b)), (Schema.name_regex b) eqn:E2;
      cbn in Hb; try discriminate.
    destruct (Nat.leb 1 (String.length o)), (Nat.ltb 0 (String.length (Schema.trim o))) eqn:E3;
      cbn in Ho; try discriminate.
    injection Hp as Hp. injection Hb as Hb. injection Ho as Ho.
    apply SchemaFacts2.trim_nonempty in E3.
    destruct He as [[He _] | [He [H1 H2]]]; [discriminate|].
    injection He as He.
    destruct cfg; cbn in *; subst. repeat split; assumption.
  - intros [-> [Hp [H1 [H2 [Hb Ho]]]]].
    pose proof (SchemaFacts2.endsWith_length _ Hp) as Lp.
    assert (Lp1 : (1 <= String.length (toLowerCase p))%nat) by lia.
    apply SchemaFacts2.toLowerCase_length_pos in Lp1.
    pose proof (SchemaFacts2.name_regex_length _ Hb) as Lb.
    pose proof (SchemaFacts2.trim_empty_length _ Ho) as Lo.
    apply SchemaFacts2.trim_nonempty in Ho.
    assert (Lp' : Nat.leb 1 (String.length p) = true) by (apply Nat.leb_le; lia).
    assert (Lb' : Nat.leb 1 (String.length b) = true) by (apply Nat.leb_le; lia).
    assert (Lo' : Nat.leb 1 (String.length o) = true) by (apply Nat.leb_le; lia).
    rewrite Lp', Hp, Lb', Hb, Lo', Ho. cbn.
    repeat split; right; auto.
Qed.

(** X29: a configuration the form passes on, applied to the wizard, moves
    it to the process-control step and stores the selected file as its
    path; processing can then start exactly when a file is selected and
    no run is active. *)
Theorem form_change_enables_start (s : App.State) (d : Schema.Draft) (c : ProcessingConfig) :
  ConfigForm.handleFormChange d = [App.ConfigChange c] ->
  let s' := fold_left App.dispatch (ConfigForm.handleFormChange d) s in
  App.currentStep s' = App.process
  /\ App.config s' = Some (mkProcessingConfig (App.selectedFile s) (emailsPerPdf c)
                            (baseFileName c) (outputDirectory c))
  /\ App.canStartProcessing s' = truthy (App.selectedFile s) && negb (App.isProcessing s).
Proof.
  intros Hf s'. subst s'. rewrite Hf.
  unfold ConfigForm.handleFormChange in Hf.
  destruct (Schema.validateConfig d) as [|cfg] eqn:Hv; [discriminate|].
  injection Hf as ->.
  apply SchemaFacts.validateConfig_inr in Hv as [_ [He [Hb Ho]]].
  apply SchemaFacts.emailsPerPdf_field_inr in He.
  assert (Hq : Qltb 0 (emailsPerPdf c) = true).
  { assert (H1 : (1 <= emailsPerPdf c)%Q).
    { destruct He as [[_ He] | [_ [H1 _]]]; [rewrite He; discriminate | exact H1]. }
    unfold Qltb. destruct (Qle_bool (emailsPerPdf c) 0) eqn:Hle; [|reflexivity].
    apply Qle_bool_iff in Hle. exfalso.
    apply (Qlt_irrefl 0). apply Qlt_le_trans with (emailsPerPdf c); [|exact Hle].
    apply Qlt_le_trans with 1%Q; [reflexivity | exact H1]. }
  assert (Hbt : truthy (baseFileName c) = true).
  { unfold Schema.baseFileName_field, Schema.string_field, Schema.checks in Hb.
    destruct (Schema.d_baseFileName d); try discriminate.
    destruct (Schema.check _ _ ++ _)%list eqn:Hc; [|discriminate].
    injection Hb as <-. apply app_eq_nil in Hc as [Hc _].
    apply SchemaFacts2.check_nil in Hc. destruct s0; [discriminate | reflexivity]. }
  assert (Hot : truthy (outputDirectory c) = true).
  { unfold Schema.outputDirectory_field, Schema.string_field, Schema.checks in Ho.
    destruct (Schema.d_outputDirectory d); try discriminate.
    destruct (Schema.check _ _ ++ _)%list eqn:Hc; [|discriminate].
    injection Ho as <-. apply app_eq_nil in Hc as [Hc _].
    apply SchemaFacts2.check_nil in Hc. destruct s0; [discriminate | reflexivity]. }
  cbn [fold_left]. unfold App.dispatch.
  rewrite AppFacts2.commit_quiet by
    (cbn [App.handle]; unfold App.handleConfigChange; cbn;
     destruct (_ && _ && _); reflexivity).
  cbn [App.handle]. unfold App.handleConfigChange. cbn.
  rewrite Hbt, Hot, Hq. cbn.
  unfold App.canStartProcessing. cbn. rewrite Hbt, Hot, Hq.
  rewrite !andb_true_r. repeat split.
Qed.

Lemma form_change_enables_start_witness :
  ConfigForm.handleFormChange
    (Schema.mkDraft (Schema.JsString "archive.pst") (Schema.JsNumber 10)
       (Schema.JsString "emails_archiv") (Schema.JsString "/out"))
  = [App.ConfigChange (mkProcessingConfig "archive.pst" 10 "emails_archiv" "/out")]
  /\ App.currentStep
       (fold_left App.dispatch
          (ConfigForm.handleFormChange
             (Schema.mkDraft (Schema.JsString "archive.pst") (Schema.JsNumber 10)
                (Schema.JsString "emails_archiv") (Schema.JsString "/out")))
          (App.dispatch App.initial (App.FileSelect "archive.pst")))
     = App.process.
Proof.
  assert (Hf : ConfigForm.handleFormChange
                 (Schema.mkDraft (Schema.JsString "archive.pst") (Schema.JsNumber 10)
                    (Schema.JsString "emails_archiv") (Schema.JsString "/out"))
               = [App.ConfigChange (mkProcessingConfig "archive.pst" 10 "emails_archiv" "/out")])
    by (vm_compute; reflexivity).
  split; [exact Hf|].
  exact (proj1 (form_change_enables_start
                  (App.dispatch App.initial (App.FileSelect "archive.pst")) _ _ Hf)).
Defined.

(** X30: for a backend error shown by the [ProgressDisplay] of [App]
    (which passes [onRetry] and [onReset] only), the offered actions are:
    reset alone for file and directory errors (the select-file and
    select-directory actions are never offered), retry alone for unknown
    errors, which are not recoverable, and retry then reset otherwise. *)
Theorem backend_error_actions (now : Z) (msg : string) :
  map Recovery.action
    (Recovery.generateRecoveryActions (mapBackendErrorToGerman now msg)
       (Recovery.mkRecoveryContext true true false false))
  = let c := code (mapBackendErrorToGerman now msg) in
    if String.eqb c "PST_FILE_NOT_FOUND" || String.eqb c "PST_INVALID_FORMAT"
       || String.eqb c "DIRECTORY_NOT_FOUND"
    then [Recovery.Reset]
    else if String.eqb c "UNKNOWN_ERROR" then [Recovery.Retry]
    else [Recovery.Retry; Recovery.Reset].
Proof.
  unfold mapBackendErrorToGerman. split_includes; reflexivity.
Qed.
